(** * DC motor training station: control core

    A shallow embedding of the Python control core
    (anfis_controller.py, hardware_controller.py, main_controller.py)
    and the properties of its specification.

    Numbers.  Python and numpy floats are modelled as exact rationals
    [Q]: no rounding, no infinities, no NaN.  Equality of values is
    [Qeq] (written [==]).  The code and this reading agree, up to
    rounding, as long as no floating-point operation overflows.  In
    doubles a large input does overflow: a [delta_error] beyond 1.8e308
    becomes [inf], [0 * inf] is [nan], [np.clip] returns [nan]
    unchanged, and Python's [error ** 2] raises OverflowError above
    about 1.3e154.  A statement whose truth depends on the value the
    fuzzy controller computes or on the course of training therefore
    carries the hypotheses [in_range], [controller_in_range] and
    [samples_in_range] (magnitudes up to 1e100), under which every
    intermediate value of [calculate_control] stays below 2.02e202
    (see [calculate_control_succeeds_when_valid]).

    Exceptions.  A Python call that may raise returns [result A]; the
    [try ... except Exception] blocks of the source are written out as
    matches on that result.

    Randomness and time.  [np.random.normal] and [time.time] are inputs
    of the step that reads them. *)

From Stdlib Require Import String Bool Arith Lia QArith Qabs Qminmax Lqa List.
Import ListNotations.

Local Open Scope string_scope.
Local Open Scope list_scope.
Local Open Scope Q_scope.

(** ** Python exceptions *)

Inductive exn : Type :=
| ValueError
| IndexError
| AttributeError
| ZeroDivisionError.

Inductive result (A : Type) : Type :=
| Ok (a : A)
| Raise (e : exn).

Arguments Ok {A} a.
Arguments Raise {A} e.

Definition bind {A B : Type} (m : result A) (k : A -> result B) : result B :=
  match m with
  | Ok a => k a
  | Raise e => Raise e
  end.

Notation "'let*' x ':=' m 'in' k" := (bind m (fun x => k))
  (at level 10, x name, m at level 100, k at level 200).

(** ** Comparisons and the numpy primitives the source calls *)

Definition Qleb (x y : Q) : bool := Qle_bool x y.
Definition Qltb (x y : Q) : bool := negb (Qle_bool y x).

(** Python's [max(a, b)]: the first argument unless the second is
    strictly greater. *)
Definition py_max (a b : Q) : Q := if Qltb a b then b else a.

(** Python's [min(a, b)]: the first argument unless the second is
    strictly smaller. *)
Definition py_min (a b : Q) : Q := if Qltb b a then b else a.

Module Np.

(** [np.clip(x, lo, hi)] is [minimum(maximum(x, lo), hi)]. *)
Definition maximum (x y : Q) : Q := if Qltb x y then y else x.
Definition minimum (x y : Q) : Q := if Qltb y x then y else x.
Definition clip (x lo hi : Q) : Q := minimum (maximum x lo) hi.

(** [np.sum] of a one-dimensional array. *)
Definition sum (v : list Q) : Q := fold_right Qplus 0 v.

(** [np.zeros(n)]. *)
Definition zeros (n : nat) : list Q := repeat 0 n.

(** [v[i] = x] on a one-dimensional array: IndexError out of range. *)
Fixpoint setitem (v : list Q) (i : nat) (x : Q) : result (list Q) :=
  match v, i with
  | [], _ => Raise IndexError
  | _ :: t, O => Ok (x :: t)
  | h :: t, S i' => let* t' := setitem t i' x in Ok (h :: t')
  end.

(** [l[i]] on a Python list: IndexError out of range. *)
Definition getitem {A : Type} (l : list A) (i : nat) : result A :=
  match nth_error l i with
  | Some a => Ok a
  | None => Raise IndexError
  end.

(** Inner product of two vectors of the same length; numpy raises
    ValueError on a shape mismatch. *)
Fixpoint dot1 (r v : list Q) : result Q :=
  match r, v with
  | [], [] => Ok 0
  | a :: r', b :: v' => let* s := dot1 r' v' in Ok (a * b + s)
  | _, _ => Raise ValueError
  end.

Fixpoint dot_rows (m : list (list Q)) (v : list Q) : result (list Q) :=
  match m with
  | [] => Ok []
  | r :: m' =>
      let* x := dot1 r v in
      let* xs := dot_rows m' v in
      Ok (x :: xs)
  end.

(** [np.dot(M, v)] for a two-dimensional [M] with [ncols] columns:
    ValueError unless [v] has [ncols] entries, else one inner product
    per row. *)
Definition dot (ncols : nat) (m : list (list Q)) (v : list Q)
  : result (list Q) :=
  if Nat.eqb ncols (length v) then dot_rows m v else Raise ValueError.

(** Elementwise [a / s] of an array by a scalar. *)
Definition div_scalar (v : list Q) (s : Q) : list Q :=
  map (fun x => x / s) v.

(** Elementwise product of two arrays of the same length. *)
Fixpoint mul_elementwise (a b : list Q) : result (list Q) :=
  match a, b with
  | [], [] => Ok []
  | x :: a', y :: b' => let* t := mul_elementwise a' b' in Ok (x * y :: t)
  | _, _ => Raise ValueError
  end.

(** [a * b] on two one-dimensional arrays: an array of one element is
    broadcast along the other; otherwise the product is elementwise,
    with ValueError when the lengths differ. *)
Definition mul (a b : list Q) : result (list Q) :=
  match a, b with
  | [x], _ => Ok (map (fun y => x * y) b)
  | _, [y] => Ok (map (fun x => x * y) a)
  | _, _ => mul_elementwise a b
  end.

End Np.

(** Python's float division: ZeroDivisionError on a zero divisor. *)
Definition py_div (n d : Q) : result Q :=
  if Qeq_bool d 0 then Raise ZeroDivisionError else Ok (n / d).

(** ** anfis_controller.py *)

Module ANFIS.

(** [membership_function(self, x, params, mf_type='trimf')]. *)
Definition membership_function (x : Q) (params : list Q) (mf_type : string)
  : result Q :=
  if String.eqb mf_type "trimf" then
    match params with
    | [a; b; c] =>
        if Qleb x a || Qleb c x then Ok 0
        else if Qltb a x && Qleb x b then py_div (x - a) (b - a)
        else py_div (c - x) (c - b)
    | _ => Raise ValueError
    end
  else Raise ValueError.

(** What the controller writes to its logger. *)
Inductive log_entry : Type :=
| LogInfo (msg : string)
| LogEpoch (epoch num_epochs : nat) (epoch_error : Q)
| LogError (msg : string) (e : exn).

(** The attributes of an [ANFISController] instance.  [last_error] is
    [None] until [calculate_control] creates the attribute. *)
Record t : Type := mk {
  num_inputs : nat;
  num_mf : nat;
  num_rules : nat;
  mf_error_ranges : list (list Q);
  mf_delta_error_ranges : list (list Q);
  consequent_params : list (list Q);
  learning_rate : Q;
  momentum : Q;
  error_goal : Q;
  training_epochs : nat;
  last_error : option Q;
  is_trained : bool;
  training_epoch : nat;
  log : list log_entry
}.

Definition set_last_error (st : t) (e : Q) : t :=
  mk (num_inputs st) (num_mf st) (num_rules st) (mf_error_ranges st)
     (mf_delta_error_ranges st) (consequent_params st) (learning_rate st)
     (momentum st) (error_goal st) (training_epochs st)
     (Some e) (is_trained st) (training_epoch st) (log st).

Definition set_is_trained (st : t) (b : bool) : t :=
  mk (num_inputs st) (num_mf st) (num_rules st) (mf_error_ranges st)
     (mf_delta_error_ranges st) (consequent_params st) (learning_rate st)
     (momentum st) (error_goal st) (training_epochs st)
     (last_error st) b (training_epoch st) (log st).

Definition set_training_epoch (st : t) (n : nat) : t :=
  mk (num_inputs st) (num_mf st) (num_rules st) (mf_error_ranges st)
     (mf_delta_error_ranges st) (consequent_params st) (learning_rate st)
     (momentum st) (error_goal st) (training_epochs st)
     (last_error st) (is_trained st) n (log st).

Definition write_log (st : t) (l : log_entry) : t :=
  mk (num_inputs st) (num_mf st) (num_rules st) (mf_error_ranges st)
     (mf_delta_error_ranges st) (consequent_params st) (learning_rate st)
     (momentum st) (error_goal st) (training_epochs st)
     (last_error st) (is_trained st) (training_epoch st) (l :: log st).

(** [__init__] followed by [_initialize_parameters]: the structure is
    read from the configuration, [num_rules] is
    [num_mf ** num_inputs], and the consequent array has the shape
    [(num_rules, num_inputs + 1)]; its entries come from
    [np.random.randn] and are an argument here. *)
Definition init (input_vars membership_functions epochs : nat)
    (error_ranges delta_error_ranges : list (list Q))
    (lr mom goal : Q) (randn : list (list Q)) : t :=
  mk input_vars membership_functions
     (membership_functions ^ input_vars)
     error_ranges delta_error_ranges randn lr mom goal epochs
     None false 0
     [LogInfo "ANFIS Controller initialized";
      LogInfo "ANFIS parameters initialized"].

(** A [for] loop over a list whose body may raise. *)
Fixpoint for_each {A S : Type} (l : list A) (body : A -> S -> result S)
    (s : S) : result S :=
  match l with
  | [] => Ok s
  | a :: l' => let* s' := body a s in for_each l' body s'
  end.

(** The loops that fill [error_mf_grades] and
    [delta_error_mf_grades]. *)
Fixpoint mf_grades (x : Q) (ranges : list (list Q)) : result (list Q) :=
  match ranges with
  | [] => Ok []
  | mf_range :: rest =>
      let* grade := membership_function x mf_range "trimf" in
      let* grades := mf_grades x rest in
      Ok (grade :: grades)
  end.

(** Body of the inner loop:
    [firing_strengths[rule_idx] = min(e[i], d[j]); rule_idx += 1]. *)
Definition rule_body (error_mf_grades delta_error_mf_grades : list Q)
    (i j : nat) (s : list Q * nat) : result (list Q * nat) :=
  let '(firing_strengths, rule_idx) := s in
  let* gi := Np.getitem error_mf_grades i in
  let* gj := Np.getitem delta_error_mf_grades j in
  let* fs := Np.setitem firing_strengths rule_idx (py_min gi gj) in
  Ok (fs, S rule_idx).

(** [calculate_rule_firing_strengths(self, error, delta_error)]. *)
Definition calculate_rule_firing_strengths (st : t) (error delta_error : Q)
  : result (list Q) :=
  let* error_mf_grades := mf_grades error (mf_error_ranges st) in
  let* delta_error_mf_grades :=
    mf_grades delta_error (mf_delta_error_ranges st) in
  let firing_strengths := Np.zeros (num_rules st) in
  let* s :=
    for_each (seq 0 (num_mf st))
      (fun i =>
         for_each (seq 0 (num_mf st))
           (rule_body error_mf_grades delta_error_mf_grades i))
      (firing_strengths, 0%nat) in
  Ok (fst s).

(** The constant added to the sum of the firing strengths. *)
Definition epsilon : Q := 1 # 10000000000.

(** The sample time assumed by [calculate_control]. *)
Definition sample_time : Q := 1 # 100.

(** Lines 163-167 of [calculate_control]: the firing strengths
    divided by their sum plus [1e-10]. *)
Definition normalized_firing (st : t) (error delta_error : Q)
  : result (list Q) :=
  let* firing_strengths :=
    calculate_rule_firing_strengths st error delta_error in
  let sum_firing := Np.sum firing_strengths + epsilon in
  Ok (Np.div_scalar firing_strengths sum_firing).

(** The weighted sum of the rule outputs, before the clip. *)
Definition weighted_output (st : t) (error delta_error : Q) : result Q :=
  let* normalized := normalized_firing st error delta_error in
  let inputs := [1; error; delta_error] in
  let* rule_outputs :=
    Np.dot (num_inputs st + 1) (consequent_params st) inputs in
  let* weighted := Np.mul normalized rule_outputs in
  Ok (Np.sum weighted).

(** The [try] block of [calculate_control]: the state after the
    assignment to [last_error], and the value returned or the
    exception raised after it. *)
Definition control_try (st : t) (error : Q) : t * result Q :=
  let last :=
    match last_error st with
    | None => error
    | Some l => l
    end in
  let delta_error := (error - last) / sample_time in
  let st' := set_last_error st error in
  (st',
   let* control := weighted_output st' error delta_error in
   Ok (Np.clip control (-100) 100)).

(** [calculate_control(self, error, measurements)]: the [except]
    clause logs the exception and returns 0.0. *)
Definition calculate_control (st : t) (error : Q) : t * Q :=
  match control_try st error with
  | (st', Ok control) => (st', control)
  | (st', Raise e) =>
      (write_log st' (LogError "Error calculating control" e), 0)
  end.

(** The loop over the samples of one epoch, from the accumulated
    [epoch_error]. *)
Fixpoint sample_pass (st : t) (training_data : list (Q * Q * Q))
    (epoch_error : Q) : t * Q :=
  match training_data with
  | [] => (st, epoch_error)
  | (error, delta_error, target) :: rest =>
      let '(st', output) := calculate_control st error in
      let error' := target - output in
      sample_pass st' rest (epoch_error + error' * error')
  end.

(** One turn of the epoch loop; [Ok true] stands for [break]. *)
Definition epoch_body (st : t) (training_data : list (Q * Q * Q))
    (num_epochs epoch : nat) : t * result bool :=
  let '(st1, epoch_error) := sample_pass st training_data 0 in
  let st2 := set_training_epoch st1 (training_epoch st1 + 1) in
  match py_div epoch_error (inject_Z (Z.of_nat (length training_data))) with
  | Raise e => (st2, Raise e)
  | Ok epoch_error' =>
      let st3 := write_log st2 (LogEpoch (epoch + 1) num_epochs epoch_error') in
      if Qltb epoch_error' (error_goal st3)
      then (write_log st3 (LogInfo "Training completed - Error goal reached"),
            Ok true)
      else (st3, Ok false)
  end.

Fixpoint epoch_loop (st : t) (training_data : list (Q * Q * Q))
    (num_epochs : nat) (epochs : list nat) : t * result unit :=
  match epochs with
  | [] => (st, Ok tt)
  | epoch :: rest =>
      match epoch_body st training_data num_epochs epoch with
      | (st', Raise e) => (st', Raise e)
      | (st', Ok true) => (st', Ok tt)
      | (st', Ok false) => epoch_loop st' training_data num_epochs rest
      end
  end.

(** [train(self, training_data)]. *)
Definition train (st : t) (training_data : list (Q * Q * Q)) : t :=
  let num_epochs := training_epochs st in
  match epoch_loop st training_data num_epochs (seq 0 num_epochs) with
  | (st', Ok _) => set_is_trained st' true
  | (st', Raise e) => write_log st' (LogError "Error during training" e)
  end.

End ANFIS.

(** ** hardware_controller.py *)

Module Hardware.

(** The dictionary [sim_params] of [_initialize_simulation]. *)
Record sim_params_t : Type := mk_sim {
  motor_inertia : Q;
  motor_damping : Q;
  motor_torque_constant : Q;
  load_torque : Q;
  time_constant : Q;
  noise_level : Q;
  current_constant : Q;
  base_current : Q;
  current_noise : Q;
  max_speed : Q
}.

Definition sim_params : sim_params_t :=
  mk_sim (1 # 100) (1 # 10) (1 # 100) (1 # 10) (1 # 10) (1 # 10)
         (1 # 1000) (2 # 10) (2 # 100) 1750.

Inductive log_entry : Type :=
| LogInfo (msg : string)
| LogDebug (msg : string) (value : Q)
| LogWarning (msg : string).

(** The attributes of a [HardwareController] instance, the module
    flag [GPIO_AVAILABLE], the two entries of [config['motor']] that
    the commands read, and the GPIO lines: the level read on the
    emergency-stop input (pulled up: [true] when the button is
    released), the two direction outputs and the PWM duty. *)
Record t : Type := mk {
  gpio_available : bool;
  simulation_mode : bool;
  min_speed_rpm : Q;
  max_speed_rpm : Q;
  running : bool;
  emergency_stop_active : bool;
  current_speed : Q;
  current_current : Q;
  target_speed : Q;
  duty_cycle : Q;
  last_sim_time : Q;
  pin_emergency_stop : bool;
  pin_motor_in1 : bool;
  pin_motor_in2 : bool;
  pwm : Q;
  log : list log_entry
}.

Definition set_running (st : t) (b : bool) : t :=
  mk (gpio_available st) (simulation_mode st) (min_speed_rpm st)
     (max_speed_rpm st) b (emergency_stop_active st) (current_speed st)
     (current_current st) (target_speed st) (duty_cycle st)
     (last_sim_time st) (pin_emergency_stop st) (pin_motor_in1 st)
     (pin_motor_in2 st) (pwm st) (log st).

Definition set_emergency_stop_active (st : t) (b : bool) : t :=
  mk (gpio_available st) (simulation_mode st) (min_speed_rpm st)
     (max_speed_rpm st) (running st) b (current_speed st)
     (current_current st) (target_speed st) (duty_cycle st)
     (last_sim_time st) (pin_emergency_stop st) (pin_motor_in1 st)
     (pin_motor_in2 st) (pwm st) (log st).

Definition set_simulated (st : t) (speed current now : Q) : t :=
  mk (gpio_available st) (simulation_mode st) (min_speed_rpm st)
     (max_speed_rpm st) (running st) (emergency_stop_active st) speed
     current (target_speed st) (duty_cycle st)
     now (pin_emergency_stop st) (pin_motor_in1 st)
     (pin_motor_in2 st) (pwm st) (log st).

Definition set_target (st : t) (speed : Q) : t :=
  mk (gpio_available st) (simulation_mode st) (min_speed_rpm st)
     (max_speed_rpm st) (running st) (emergency_stop_active st)
     (current_speed st) (current_current st) speed (duty_cycle st)
     (last_sim_time st) (pin_emergency_stop st) (pin_motor_in1 st)
     (pin_motor_in2 st) (pwm st) (log st).

Definition set_duty (st : t) (d : Q) : t :=
  mk (gpio_available st) (simulation_mode st) (min_speed_rpm st)
     (max_speed_rpm st) (running st) (emergency_stop_active st)
     (current_speed st) (current_current st) (target_speed st) d
     (last_sim_time st) (pin_emergency_stop st) (pin_motor_in1 st)
     (pin_motor_in2 st) (pwm st) (log st).

Definition set_gpio_outputs (st : t) (in1 in2 : bool) (p : Q) : t :=
  mk (gpio_available st) (simulation_mode st) (min_speed_rpm st)
     (max_speed_rpm st) (running st) (emergency_stop_active st)
     (current_speed st) (current_current st) (target_speed st)
     (duty_cycle st) (last_sim_time st) (pin_emergency_stop st) in1 in2 p
     (log st).

Definition set_pin_emergency_stop (st : t) (level : bool) : t :=
  mk (gpio_available st) (simulation_mode st) (min_speed_rpm st)
     (max_speed_rpm st) (running st) (emergency_stop_active st)
     (current_speed st) (current_current st) (target_speed st)
     (duty_cycle st) (last_sim_time st) level (pin_motor_in1 st)
     (pin_motor_in2 st) (pwm st) (log st).

Definition write_log (st : t) (l : log_entry) : t :=
  mk (gpio_available st) (simulation_mode st) (min_speed_rpm st)
     (max_speed_rpm st) (running st) (emergency_stop_active st)
     (current_speed st) (current_current st) (target_speed st)
     (duty_cycle st) (last_sim_time st) (pin_emergency_stop st)
     (pin_motor_in1 st) (pin_motor_in2 st) (pwm st) (l :: log st).

(** [__init__]: simulation is forced when GPIO is not available; the
    state variables start at zero; [_initialize_hardware] starts the
    PWM at 0, [_initialize_simulation] records the time and sets the
    current to the no-load current. *)
Definition init (gpio simulation : bool) (min_rpm max_rpm now : Q)
    (pin : bool) : t :=
  let simulation_mode := if negb gpio then true else simulation in
  if negb simulation_mode && gpio then
    mk gpio simulation_mode min_rpm max_rpm false false 0 0 0 0 0
       pin false false 0 [LogInfo "Hardware initialized successfully"]
  else
    mk gpio simulation_mode min_rpm max_rpm false false 0
       (base_current sim_params) 0 0 now
       pin false false 0 [LogInfo "Running in simulation mode"].

(** [_update_simulation]: [now] is [time.time()], [noise_speed] and
    [noise_current] are the two draws of [np.random.normal]. *)
Definition _update_simulation (st : t) (now noise_speed noise_current : Q)
  : t :=
  let dt := now - last_sim_time st in
  let motor_input := duty_cycle st / 100 in
  let acceleration :=
    (motor_input * motor_torque_constant sim_params * max_speed sim_params
     - motor_damping sim_params * current_speed st
     - load_torque sim_params) / motor_inertia sim_params in
  let speed1 := current_speed st + acceleration * dt in
  let speed2 := Np.clip speed1 0 (max_speed sim_params) in
  let speed3 := speed2 + noise_speed in
  let speed4 := py_max 0 speed3 in
  let current1 :=
    base_current sim_params
    + Qabs motor_input * 2
    + (speed4 / max_speed sim_params) * 3 in
  let current2 := current1 + noise_current in
  let current3 := py_max 0 current2 in
  set_simulated st speed4 current3 now.

(** [_update_measurements]: [pass]. *)
Definition _update_measurements (st : t) : t := st.

(** One turn of [_monitoring_loop]. *)
Definition _monitoring_loop_body (st : t)
    (now noise_speed noise_current : Q) : t :=
  if running st && negb (emergency_stop_active st) then
    if simulation_mode st
    then _update_simulation st now noise_speed noise_current
    else _update_measurements st
  else st.

(** [set_target_speed(self, speed)]. *)
Definition set_target_speed (st : t) (speed : Q) : t :=
  let speed' := Np.clip speed (min_speed_rpm st) (max_speed_rpm st) in
  write_log (set_target st speed') (LogDebug "Target speed set" speed').

(** [set_duty_cycle(self, duty_cycle)]. *)
Definition set_duty_cycle (st : t) (duty : Q) : t :=
  let duty' := Np.clip duty (-100) 100 in
  let st1 :=
    if simulation_mode st then set_duty st duty'
    else if gpio_available st then
      let st' :=
        if Qleb 0 duty'
        then set_gpio_outputs st true false (pwm st)
        else set_gpio_outputs st false true (pwm st) in
      set_gpio_outputs st' (pin_motor_in1 st') (pin_motor_in2 st')
        (Qabs duty')
    else st in
  write_log (set_duty st1 duty') (LogDebug "Duty cycle set" duty').

Record measurements : Type := mk_measurements {
  m_speed : Q;
  m_current : Q;
  m_duty_cycle : Q;
  m_target_speed : Q;
  m_timestamp : Q
}.

(** [get_measurements(self)], at time [now]. *)
Definition get_measurements (st : t) (now : Q) : measurements :=
  mk_measurements (current_speed st) (current_current st) (duty_cycle st)
    (target_speed st) now.

(** [start(self)]. *)
Definition start (st : t) : t :=
  let st1 := set_running st true in
  let st2 := set_emergency_stop_active st1 false in
  write_log st2 (LogInfo "Motor operation started").

(** [stop(self)]. *)
Definition stop (st : t) : t :=
  let st1 := set_running st false in
  let st2 := set_duty_cycle st1 0 in
  write_log st2 (LogInfo "Motor operation stopped").

(** [emergency_stop(self)]. *)
Definition emergency_stop (st : t) : t :=
  let st1 := set_emergency_stop_active st true in
  let st2 := set_running st1 false in
  let st3 := set_duty_cycle st2 0 in
  write_log st3 (LogWarning "Emergency stop activated").

(** [reset_emergency_stop(self)]: the new state and the value
    returned. *)
Definition reset_emergency_stop (st : t) : t * bool :=
  if simulation_mode st || (gpio_available st && pin_emergency_stop st)
  then
    (write_log (set_emergency_stop_active st false)
       (LogInfo "Emergency stop reset"), true)
  else (st, false).

(** [_emergency_stop_callback(self, channel)], called on a falling
    edge of the emergency-stop input. *)
Definition _emergency_stop_callback (st : t) : t :=
  if gpio_available st && negb (pin_emergency_stop st)
  then emergency_stop st
  else st.

(** [cleanup(self)].  On real hardware the source then calls
    [GPIO.cleanup()], which releases the channels; that call is
    outside the model, so after [cleanup] the fields [pwm],
    [pin_motor_in1] and [pin_motor_in2] hold the levels last commanded
    and say nothing about the pins. *)
Definition cleanup (st : t) : t :=
  write_log (stop st) (LogInfo "Hardware cleanup completed").

(** What can happen to a [HardwareController]: the calls of its
    command surface, one turn of its monitoring thread, and a change
    of level on the emergency-stop input (which, on a falling edge,
    runs the callback registered by [_initialize_hardware]). *)
Inductive op : Type :=
| OpStart
| OpStop
| OpEmergencyStop
| OpResetEmergencyStop
| OpSetTargetSpeed (speed : Q)
| OpSetDutyCycle (duty : Q)
| OpGetMeasurements (now : Q)
| OpMonitor (now noise_speed noise_current : Q)
| OpPin (level : bool)
| OpCleanup.

Definition step (st : t) (o : op) : t :=
  match o with
  | OpStart => start st
  | OpStop => stop st
  | OpEmergencyStop => emergency_stop st
  | OpResetEmergencyStop => fst (reset_emergency_stop st)
  | OpSetTargetSpeed speed => set_target_speed st speed
  | OpSetDutyCycle duty => set_duty_cycle st duty
  | OpGetMeasurements _ => st
  | OpMonitor now n1 n2 => _monitoring_loop_body st now n1 n2
  | OpPin level =>
      let falling := pin_emergency_stop st && negb level in
      let st' := set_pin_emergency_stop st level in
      if falling && negb (simulation_mode st) && gpio_available st
      then _emergency_stop_callback st'
      else st'
  | OpCleanup => cleanup st
  end.

Definition run (st : t) (ops : list op) : t := fold_left step ops st.

End Hardware.

(** ** main_controller.py *)

Module Main.

Inductive log_entry : Type :=
| LogInfo (msg : string)
| LogWarning (msg : string)
| LogError (msg : string)
| LogException (msg : string) (e : exn).

(** The attributes of a [MainController] instance.  [target_speed]
    is [None] until [set_target_speed] creates the attribute;
    [session_data] is the buffer [DataLogger.log_data] appends to
    (its flush to disk is outside the model). *)
Record t : Type := mk {
  hardware : Hardware.t;
  anfis : ANFIS.t;
  running : bool;
  control_mode : string;
  logging_enabled : bool;
  target_speed : option Q;
  session_data : list Hardware.measurements;
  log : list log_entry
}.

Definition set_hardware (st : t) (h : Hardware.t) : t :=
  mk h (anfis st) (running st) (control_mode st) (logging_enabled st)
     (target_speed st) (session_data st) (log st).

Definition set_anfis (st : t) (a : ANFIS.t) : t :=
  mk (hardware st) a (running st) (control_mode st) (logging_enabled st)
     (target_speed st) (session_data st) (log st).

Definition set_running (st : t) (b : bool) : t :=
  mk (hardware st) (anfis st) b (control_mode st) (logging_enabled st)
     (target_speed st) (session_data st) (log st).

Definition set_mode (st : t) (m : string) : t :=
  mk (hardware st) (anfis st) (running st) m (logging_enabled st)
     (target_speed st) (session_data st) (log st).

Definition set_target (st : t) (speed : Q) : t :=
  mk (hardware st) (anfis st) (running st) (control_mode st)
     (logging_enabled st) (Some speed) (session_data st) (log st).

Definition log_data (st : t) (m : Hardware.measurements) : t :=
  mk (hardware st) (anfis st) (running st) (control_mode st)
     (logging_enabled st) (target_speed st) (m :: session_data st) (log st).

Definition write_log (st : t) (l : log_entry) : t :=
  mk (hardware st) (anfis st) (running st) (control_mode st)
     (logging_enabled st) (target_speed st) (session_data st) (l :: log st).

(** [__init__]. *)
Definition init (h : Hardware.t) (a : ANFIS.t) : t :=
  mk h a false "manual" true None [] [LogInfo "Main Controller initialized"].

(** [stop(self)]. *)
Definition stop (st : t) : t :=
  let st1 := set_running st false in
  let st2 := set_hardware st1 (Hardware.stop (hardware st1)) in
  write_log st2 (LogInfo "Control system stopped").

(** [start(self)]; the thread it starts runs [_control_loop]. *)
Definition start (st : t) : t :=
  let st1 := set_running st true in
  let st2 := set_hardware st1 (Hardware.start (hardware st1)) in
  write_log st2 (LogInfo "Control system started").

(** [_manual_control]: [pass]. *)
Definition _manual_control (st : t) (m : Hardware.measurements) : t := st.

(** [_anfis_control]: reading [self.target_speed] raises
    AttributeError while the attribute does not exist; the [except]
    clause logs it. *)
Definition _anfis_control (st : t) (m : Hardware.measurements) : t :=
  match target_speed st with
  | None =>
    write_log st (LogException "Error in ANFIS control" AttributeError)
  | Some target =>
      let error := target - Hardware.m_speed m in
      let '(a, control_action) :=
        ANFIS.calculate_control (anfis st) error in
      let st1 := set_anfis st a in
      set_hardware st1
        (Hardware.set_duty_cycle (hardware st1) control_action)
  end.

(** The body of the [while self.running] loop of [_control_loop], at
    time [now]; the sleep that paces the loop is outside the
    model. *)
Definition _control_loop_body (st : t) (now : Q) : t :=
  let measurements := Hardware.get_measurements (hardware st) now in
  let st1 := if logging_enabled st then log_data st measurements else st in
  if String.eqb (control_mode st1) "anfis"
  then _anfis_control st1 measurements
  else _manual_control st1 measurements.

(** One scheduler tick: the loop's guard, then its body, with no other
    call in between.  The loop runs in a thread of its own and takes no
    lock: a turn that tested [self.running] before another thread
    called [stop] or [emergency_stop] goes on with its body after that
    call, which is [_control_loop_body] applied to the state the call
    left. *)
Definition tick (st : t) (now : Q) : t :=
  if running st then _control_loop_body st now else st.

(** [set_target_speed(self, speed)]. *)
Definition set_target_speed (st : t) (speed : Q) : t :=
  write_log (set_target st speed) (LogInfo "Target speed set").

(** [set_control_mode(self, mode)]. *)
Definition set_control_mode (st : t) (mode : string) : t :=
  if String.eqb mode "manual" || String.eqb mode "anfis"
  then write_log (set_mode st mode) (LogInfo "Control mode set")
  else write_log st (LogError "Invalid control mode").

(** [emergency_stop(self)]. *)
Definition emergency_stop (st : t) : t :=
  let st1 := stop st in
  let st2 := set_hardware st1 (Hardware.emergency_stop (hardware st1)) in
  write_log st2 (LogWarning "Emergency stop activated").

(** [cleanup(self)]; saving the session data is outside the model. *)
Definition cleanup (st : t) : t :=
  let st1 := stop st in
  let st2 := set_hardware st1 (Hardware.cleanup (hardware st1)) in
  write_log st2 (LogInfo "System cleanup completed").

(** What can happen to the system: the calls of the main
    controller's command surface, a scheduler tick, training, and
    anything that happens to the hardware controller it owns. *)
Inductive op : Type :=
| OpStart
| OpStop
| OpEmergencyStop
| OpSetTargetSpeed (speed : Q)
| OpSetControlMode (mode : string)
| OpTick (now : Q)
| OpTrain (training_data : list (Q * Q * Q))
| OpCleanup
| OpHardware (o : Hardware.op).

Definition step (st : t) (o : op) : t :=
  match o with
  | OpStart => start st
  | OpStop => stop st
  | OpEmergencyStop => emergency_stop st
  | OpSetTargetSpeed speed => set_target_speed st speed
  | OpSetControlMode mode => set_control_mode st mode
  | OpTick now => tick st now
  | OpTrain data => set_anfis st (ANFIS.train (anfis st) data)
  | OpCleanup => cleanup st
  | OpHardware o => set_hardware st (Hardware.step (hardware st) o)
  end.

Definition run (st : t) (ops : list op) : t := fold_left step ops st.

End Main.

(** ** data_logger.py *)

Module DataLogger.

(** A data point: a Python dict from field names to floats, as the
    list of its items in insertion order. *)
Definition row : Type := list (string * Q).

(** [list(d.keys())]. *)
Definition keys (d : row) : list string := map fst d.

(** [k in d]. *)
Definition contains (d : row) (k : string) : bool :=
  existsb (fun kv => String.eqb (fst kv) k) d.

(** [d[k]]; [None] stands for KeyError. *)
Fixpoint getitem (d : row) (k : string) : option Q :=
  match d with
  | [] => None
  | (k', v) :: d' => if String.eqb k' k then Some v else getitem d' k
  end.

Inductive error : Type :=
| KeyError
| ValueError
| OSError.

Inductive log_entry : Type :=
| LogInfo (msg : string)
| LogError (msg : string) (e : error).

(** The attributes of a [DataLogger] instance, and the writes its
    [save_session_data] has completed, newest first: for each write
    the header and the rows handed to the CSV writer.  The text of the
    file, its name and a file left incomplete by a failed write are
    outside the model; so is which files remain on disk, since the
    name has the resolution of a second and the file is opened with
    ['w']: a write in the same second as an earlier one replaces that
    file. *)
Record t : Type := mk {
  current_session_data : list row;
  buffer_size : nat;
  saved : list (list string * list row);
  log : list log_entry
}.

(** [__init__]. *)
Definition init : t := mk [] 1000 [] [LogInfo "Data Logger initialized"].

(** [csv.DictWriter] raises ValueError on a row with a key that is not
    among its field names. *)
Definition row_fits (fieldnames : list string) (r : row) : bool :=
  forallb (fun k => existsb (String.eqb k) fieldnames) (keys r).

(** [save_session_data(self)]; [io_ok] tells whether opening and
    writing the file succeed. *)
Definition save_session_data (st : t) (io_ok : bool) : t :=
  match current_session_data st with
  | [] => st
  | first :: _ =>
      let fieldnames := keys first in
      if negb io_ok then
        mk (current_session_data st) (buffer_size st) (saved st)
           (LogError "Error saving session data" OSError :: log st)
      else if forallb (row_fits fieldnames) (current_session_data st) then
        mk [] (buffer_size st)
           ((fieldnames, current_session_data st) :: saved st)
           (LogInfo "Session data saved" :: log st)
      else
        mk (current_session_data st) (buffer_size st) (saved st)
           (LogError "Error saving session data" ValueError :: log st)
  end.

(** The data point as [log_data] stores it: with the time as its
    timestamp unless it has one. *)
Definition with_timestamp (data : row) (now : Q) : row :=
  if contains data "timestamp" then data else data ++ [("timestamp", now)].

(** [log_data(self, data)], at time [now]. *)
Definition log_data (st : t) (data : row) (now : Q) (io_ok : bool) : t :=
  let st1 :=
    mk (current_session_data st ++ [with_timestamp data now])
       (buffer_size st) (saved st) (log st) in
  if Nat.leb (buffer_size st1) (List.length (current_session_data st1))
  then save_session_data st1 io_ok
  else st1.

(** [[point[key] for key in keys]]. *)
Fixpoint values (point : row) (ks : list string) : option (list Q) :=
  match ks with
  | [] => Some []
  | k :: ks' =>
      match getitem point k with
      | None => None
      | Some v =>
          match values point ks' with
          | None => None
          | Some vs => Some (v :: vs)
          end
      end
  end.

(** The loop of [generate_training_dataset] over the data points. *)
Fixpoint collect (data : list row) (input_keys output_keys : list string)
    : option (list (list Q) * list (list Q)) :=
  match data with
  | [] => Some ([], [])
  | point :: rest =>
      match values point input_keys with
      | None => None
      | Some input_values =>
          match values point output_keys with
          | None => None
          | Some output_values =>
              match collect rest input_keys output_keys with
              | None => None
              | Some (inputs, outputs) =>
                  Some (input_values :: inputs, output_values :: outputs)
              end
          end
      end
  end.

(** [generate_training_dataset(self, data, input_keys, output_keys)]:
    the two arrays, as lists of rows, and the state with its log. *)
Definition generate_training_dataset (st : t) (data : list row)
    (input_keys output_keys : list string)
    : t * (list (list Q) * list (list Q)) :=
  match collect data input_keys output_keys with
  | Some arrays => (st, arrays)
  | None =>
      (mk (current_session_data st) (buffer_size st) (saved st)
          (LogError "Error generating training dataset" KeyError :: log st),
       ([], []))
  end.

End DataLogger.

(** ** The specification's reference definitions *)

Module Spec.

(** The membership grade in the words of the specification: closed
    exclusion at both feet, linear rise and fall, and for a
    degenerate set ([a == b] or [b == c]) a vertical step with grade
    1 exactly at the shared point. *)
Definition grade (x a b c : Q) : Q :=
  if Qeq_bool a b && Qeq_bool x a then 1
  else if Qeq_bool b c && Qeq_bool x b then 1
  else if Qleb x a || Qleb c x then 0
  else if Qleb x b then (x - a) / (b - a)
  else (c - x) / (c - b).

(** The controller output for an (error, delta_error) pair: firing
    strengths, normalisation, first-order consequents, weighted sum,
    clamp to [-100, 100]; 0.0 on an internal failure. *)
Definition output (st : ANFIS.t) (error delta_error : Q) : Q :=
  match ANFIS.weighted_output st error delta_error with
  | Ok control => Np.clip control (-100) 100
  | Raise _ => 0
  end.



(** The safety state of the specification's state machine, read off
    the two flags of the hardware controller. *)
Inductive safety_state : Type := Idle | Running | EmergencyStopped.

Definition safety (h : Hardware.t) : safety_state :=
  if Hardware.emergency_stop_active h then EmergencyStopped
  else if Hardware.running h then Running
  else Idle.

End Spec.

(** ** Predicates and examples used in the statements *)

(** The attributes that neither [calculate_control] nor [train]
    assigns. *)
Definition same_configuration (st st' : ANFIS.t) : Prop :=
  ANFIS.num_inputs st' = ANFIS.num_inputs st /\
  ANFIS.num_mf st' = ANFIS.num_mf st /\
  ANFIS.num_rules st' = ANFIS.num_rules st /\
  ANFIS.mf_error_ranges st' = ANFIS.mf_error_ranges st /\
  ANFIS.mf_delta_error_ranges st' = ANFIS.mf_delta_error_ranges st /\
  ANFIS.consequent_params st' = ANFIS.consequent_params st /\
  ANFIS.error_goal st' = ANFIS.error_goal st /\
  ANFIS.training_epochs st' = ANFIS.training_epochs st.

(** A configuration the controller is meant for: two inputs, as many
    triangular sets per input as [membership_functions] says, three
    numbers per set, and the rule count computed by
    [_initialize_parameters]. *)
Definition valid_configuration (st : ANFIS.t) : Prop :=
  ANFIS.num_inputs st = 2%nat /\
  ANFIS.num_rules st = (ANFIS.num_mf st ^ ANFIS.num_inputs st)%nat /\
  List.length (ANFIS.mf_error_ranges st) = ANFIS.num_mf st /\
  List.length (ANFIS.mf_delta_error_ranges st) = ANFIS.num_mf st /\
  Forall (fun r => List.length r = 3%nat) (ANFIS.mf_error_ranges st) /\
  Forall (fun r => List.length r = 3%nat) (ANFIS.mf_delta_error_ranges st).


(** The minimum of the i-th grade of the first list and the j-th grade
    of the second. *)
Definition strength_of (eg dg : list Q) (i j : nat) : Q :=
  py_min (nth i eg 0) (nth j dg 0).

(** The firing strengths in canonical order: the outer index runs over
    the error sets, the inner index over the delta_error sets. *)
Definition canonical_strengths (eg dg : list Q) (n : nat) : list Q :=
  flat_map (fun i => map (strength_of eg dg i) (seq 0 n)) (seq 0 n).

(** Three sets per input, every rule with the consequent
    50 + error + 2 * delta_error, three training epochs and the error
    goal 0.001. *)
Definition example_anfis : ANFIS.t :=
  ANFIS.init 2 3 3
    [[-100; -100; 0]; [-50; 0; 50]; [0; 100; 100]]
    [[-10; -10; 0]; [-5; 0; 5]; [0; 10; 10]]
    (1 # 100) (9 # 10) (1 # 1000)
    (repeat [50; 1; 2] 9).

(** A simulated plant and a real one (GPIO available, emergency-stop
    button released), configured for 0 to 1750 RPM and created at time
    0, and the main controllers that own them. *)
Definition example_hardware : Hardware.t :=
  Hardware.init false true 0 1750 0 true.

Definition example_real_hardware : Hardware.t :=
  Hardware.init true false 0 1750 0 true.

Definition example_main : Main.t := Main.init example_hardware example_anfis.

Definition example_real_main : Main.t :=
  Main.init example_real_hardware example_anfis.

(** The operations that assign [False] to [emergency_stop_active]:
    [start] of either controller and [reset_emergency_stop]. *)
Definition clears_emergency_stop (o : Main.op) : bool :=
  match o with
  | Main.OpStart => true
  | Main.OpHardware Hardware.OpStart => true
  | Main.OpHardware Hardware.OpResetEmergencyStop => true
  | _ => false
  end.

Definition is_reset (o : Main.op) : bool :=
  match o with
  | Main.OpHardware Hardware.OpResetEmergencyStop => true
  | _ => false
  end.


(** What [train] logs when the error goal is reached. *)
Definition goal_reached : ANFIS.log_entry :=
  ANFIS.LogInfo "Training completed - Error goal reached".

(** The state after the epoch whose pass over the samples ended in
    [st1] with the mean squared error [mse]: the epoch counter is
    incremented and the error is reported. *)
Definition after_epoch (st1 : ANFIS.t) (epoch num_epochs : nat) (mse : Q)
  : ANFIS.t :=
  ANFIS.write_log
    (ANFIS.set_training_epoch st1 (ANFIS.training_epoch st1 + 1))
    (ANFIS.LogEpoch (epoch + 1) num_epochs mse).

(** The consequent array has the shape [_initialize_parameters]
    gives it: [num_rules] rows of [num_inputs + 1] coefficients. *)
Definition consequents_shaped (st : ANFIS.t) : Prop :=
  List.length (ANFIS.consequent_params st) = ANFIS.num_rules st /\
  Forall (fun r => List.length r = (ANFIS.num_inputs st + 1)%nat)
         (ANFIS.consequent_params st).

(** [x] lies at or beyond a foot of every set of [ranges]. *)
Definition outside_all_sets (x : Q) (ranges : list (list Q)) : Prop :=
  Forall (fun r => exists a b c, r = [a; b; c] /\ (x <= a \/ c <= x)) ranges.

(** The mean squared error [train] measures in an epoch that starts in
    the state [st]. *)
Definition epoch_mse (st : ANFIS.t) (data : list (Q * Q * Q)) : Q :=
  snd (ANFIS.sample_pass st data 0) / inject_Z (Z.of_nat (List.length data)).

(** Two controller states that [calculate_control] cannot tell apart:
    the same configuration and the same previous error. *)
Definition same_control_state (st st' : ANFIS.t) : Prop :=
  same_configuration st st' /\ ANFIS.last_error st' = ANFIS.last_error st.

(** The error of the last training sample. *)
Definition last_sample_error (data : list (Q * Q * Q)) : Q :=
  fst (fst (last data (0, 0, 0))).

(** What every reachable state of a [HardwareController] satisfies:
    the commanded duty cycle is a percentage, the measurements are not
    negative, a simulated controller never drives the GPIO outputs and
    a real one keeps the PWM at the magnitude of the duty cycle with at
    most one direction output high. *)
Definition hardware_invariant (h : Hardware.t) : Prop :=
  -100 <= Hardware.duty_cycle h <= 100 /\
  0 <= Hardware.current_speed h /\
  0 <= Hardware.current_current h /\
  (Hardware.simulation_mode h = true ->
   Hardware.pwm h = 0 /\
   Hardware.pin_motor_in1 h = false /\
   Hardware.pin_motor_in2 h = false) /\
  (Hardware.simulation_mode h = false ->
   Hardware.gpio_available h = true /\
   Hardware.pwm h = Qabs (Hardware.duty_cycle h) /\
   Hardware.pin_motor_in1 h && Hardware.pin_motor_in2 h = false).

(** The monitoring steps taken at the given times with the given noise
    draws. *)
Definition monitor_ops (steps : list (Q * Q * Q)) : list Hardware.op :=
  map (fun s : Q * Q * Q =>
         let '(now, noise_speed, noise_current) := s in
         Hardware.OpMonitor now noise_speed noise_current)
      steps.

(** The one operation that assigns the hardware controller's
    [target_speed]. *)
Definition sets_hardware_target (o : Main.op) : bool :=
  match o with
  | Main.OpHardware (Hardware.OpSetTargetSpeed _) => true
  | _ => false
  end.

(** The magnitude, 1e100, up to which the statements about the value
    of the control output and about training take their numbers. *)
Definition float_bound : Q := inject_Z (10 ^ 100).

Definition in_range (x : Q) : Prop := Qabs x <= float_bound.

(** The numbers a controller computes with are in range: the
    parameters of its sets, its consequent coefficients and the error
    of the previous call. *)
Definition controller_in_range (st : ANFIS.t) : Prop :=
  Forall (Forall in_range) (ANFIS.mf_error_ranges st) /\
  Forall (Forall in_range) (ANFIS.mf_delta_error_ranges st) /\
  Forall (Forall in_range) (ANFIS.consequent_params st) /\
  (forall l : Q, ANFIS.last_error st = Some l -> in_range l).

(** The error and the target of every training sample are in range. *)
Definition samples_in_range (data : list (Q * Q * Q)) : Prop :=
  Forall (fun s : Q * Q * Q => in_range (fst (fst s)) /\ in_range (snd s))
         data.

(** The products of the entries of two arrays, position by position. *)
Definition products (u v : list Q) : list Q :=
  map (fun p : Q * Q => fst p * snd p) (combine u v).

(** What bounds the intermediate values of [calculate_control] on
    numbers in range, 2.02e202, and the largest finite double,
    (2 - 2^-52) * 2^1023. *)
Definition intermediate_bound : Q :=
  float_bound + float_bound * float_bound
  + float_bound * (200 * float_bound).

Definition max_double : Q := inject_Z ((2 ^ 53 - 1) * 2 ^ 971).

(** The one operation that releases the GPIO channels. *)
Definition is_cleanup (o : Hardware.op) : bool :=
  match o with
  | Hardware.OpCleanup => true
  | _ => false
  end.

(** Whether the CSV writer accepts a buffer: every row has only keys
    that the first row has. *)
Definition writable (buffer : list DataLogger.row) : bool :=
  match buffer with
  | [] => true
  | first :: _ =>
      forallb (DataLogger.row_fits (DataLogger.keys first)) buffer
  end.

(** Logging the data points of a list one after the other, each with
    its time and the outcome of the file operations. *)
Definition log_all (st : DataLogger.t)
    (points : list (DataLogger.row * Q * bool)) : DataLogger.t :=
  fold_left
    (fun s (p : DataLogger.row * Q * bool) =>
       let '(data, now, io_ok) := p in DataLogger.log_data s data now io_ok)
    points st.

(** Every data point has every key of the list. *)
Definition complete (data : list DataLogger.row) (ks : list string) : bool :=
  forallb (fun point => forallb (DataLogger.contains point) ks) data.

(** The value of a key in a data point that has it. *)
Definition value_of (point : DataLogger.row) (k : string) : Q :=
  match DataLogger.getitem point k with
  | Some v => v
  | None => 0
  end.

(** The rows logged by [log_all], as the buffer receives them. *)
Definition stamped (points : list (DataLogger.row * Q * bool))
  : list DataLogger.row :=
  map (fun p : DataLogger.row * Q * bool =>
         let '(data, now, _) := p in DataLogger.with_timestamp data now)
      points.

(** ** Comparisons *)

Lemma Qleb_spec (x y : Q) : Qleb x y = true <-> x <= y.
Proof. unfold Qleb. apply Qle_bool_iff. Qed.

Lemma Qleb_false (x y : Q) : Qleb x y = false <-> y < x.
Proof.
  unfold Qleb. split; intro H.
  - apply Qnot_le_lt. intro L. apply Qle_bool_iff in L. congruence.
  - destruct (Qle_bool x y) eqn:E; [|reflexivity].
    apply Qle_bool_iff in E. lra.
Qed.

Lemma Qltb_spec (x y : Q) : Qltb x y = true <-> x < y.
Proof.
  unfold Qltb. rewrite negb_true_iff. apply (Qleb_false y x).
Qed.

Lemma Qltb_false (x y : Q) : Qltb x y = false <-> y <= x.
Proof.
  unfold Qltb. rewrite negb_false_iff. apply (Qleb_spec y x).
Qed.

Ltac qcmp :=
  repeat match goal with
    | H : Qleb _ _ = true |- _ => apply Qleb_spec in H
    | H : Qleb _ _ = false |- _ => apply Qleb_false in H
    | H : Qltb _ _ = true |- _ => apply Qltb_spec in H
    | H : Qltb _ _ = false |- _ => apply Qltb_false in H
    | H : Qeq_bool _ _ = true |- _ => apply Qeq_bool_iff in H
    | H : Qeq_bool _ _ = false |- _ => apply Qeq_bool_neq in H
    end.

Ltac qdestruct :=
  repeat match goal with
    | |- context [Qleb ?x ?y] => destruct (Qleb x y) eqn:?
    | |- context [Qltb ?x ?y] => destruct (Qltb x y) eqn:?
    | |- context [Qeq_bool ?x ?y] => destruct (Qeq_bool x y) eqn:?
    end; qcmp.

Lemma py_max_spec (a b : Q) : a <= py_max a b /\ b <= py_max a b.
Proof. unfold py_max. qdestruct; lra. Qed.

Lemma py_max_cases (a b : Q) :
  (b <= a /\ py_max a b = a) \/ (a < b /\ py_max a b = b).
Proof. unfold py_max. qdestruct; [right | left]; split; auto. Qed.


Lemma py_min_bounds (a b lo hi : Q) :
  lo <= a <= hi -> lo <= b <= hi -> lo <= py_min a b <= hi.
Proof. unfold py_min. qdestruct; lra. Qed.

Lemma clip_bounds (x lo hi : Q) :
  lo <= hi -> lo <= Np.clip x lo hi <= hi.
Proof.
  intros. unfold Np.clip, Np.minimum, Np.maximum. qdestruct; lra.
Qed.

Lemma clip_inside (x lo hi : Q) :
  lo <= x <= hi -> Np.clip x lo hi = x.
Proof.
  intros [Hlo Hhi]. unfold Np.clip, Np.minimum, Np.maximum.
  destruct (Qltb x lo) eqn:E1; qcmp; [lra|].
  destruct (Qltb hi x) eqn:E2; qcmp; [lra|reflexivity].
Qed.

Lemma py_div_ok (n d : Q) : ~ d == 0 -> py_div n d = Ok (n / d).
Proof.
  intro H. unfold py_div. destruct (Qeq_bool d 0) eqn:E; [|reflexivity].
  apply Qeq_bool_iff in E. contradiction.
Qed.

Lemma div_unit_interval (n d : Q) : 0 <= n -> n <= d -> 0 < d -> 0 <= n / d <= 1.
Proof.
  intros. split.
  - apply Qle_shift_div_l; lra.
  - apply Qle_shift_div_r; lra.
Qed.

(** ** Numbers in range *)

Lemma float_bound_ge_1 : 1 <= float_bound.
Proof. vm_compute. discriminate. Qed.

Lemma intermediate_bound_nonneg : 0 <= intermediate_bound.
Proof. vm_compute. discriminate. Qed.

Lemma intermediate_bound_below_max_double : intermediate_bound < max_double.
Proof. vm_compute. reflexivity. Qed.

(** Closed instances of [in_range] and [samples_in_range]. *)
Ltac in_range_closed := unfold in_range; vm_compute; discriminate.

Ltac samples_in_range_closed :=
  unfold samples_in_range;
  repeat (apply Forall_cons; [split; in_range_closed|]);
  apply Forall_nil.

Lemma example_anfis_in_range : controller_in_range example_anfis.
Proof.
  assert (H : forall m : list (list Q),
             forallb (forallb (fun x => Qle_bool (Qabs x) float_bound)) m
             = true ->
             Forall (Forall in_range) m).
  { intros m Hm. apply Forall_forall. intros l Hl.
    apply Forall_forall. intros x Hx.
    rewrite forallb_forall in Hm. specialize (Hm l Hl).
    rewrite forallb_forall in Hm. apply Qle_bool_iff. apply Hm. exact Hx. }
  unfold controller_in_range.
  split; [|split; [|split]].
  - apply H. vm_compute. reflexivity.
  - apply H. vm_compute. reflexivity.
  - apply H. vm_compute. reflexivity.
  - intros l Hl. discriminate Hl.
Qed.

(** ** The membership function *)




(** ** The target speed command *)

(** C10.  [set_target_speed] stores the argument clipped to the
    configured range: whatever the argument, the stored target speed
    lies within [min_speed_rpm, max_speed_rpm], and it is the argument
    itself when the argument is already in range.  The configured
    bounds are left as they were, so this holds after every call. *)
Theorem set_target_speed_clamped (st : Hardware.t) (speed : Q) :
  Hardware.min_speed_rpm st <= Hardware.max_speed_rpm st ->
  let st' := Hardware.set_target_speed st speed in
  Hardware.target_speed st' =
    Np.clip speed (Hardware.min_speed_rpm st) (Hardware.max_speed_rpm st) /\
  Hardware.min_speed_rpm st' <= Hardware.target_speed st'
    <= Hardware.max_speed_rpm st' /\
  (Hardware.min_speed_rpm st <= speed <= Hardware.max_speed_rpm st ->
   Hardware.target_speed st' = speed) /\
  Hardware.min_speed_rpm st' = Hardware.min_speed_rpm st /\
  Hardware.max_speed_rpm st' = Hardware.max_speed_rpm st.
Proof.
  intros Hrange st'. subst st'. unfold Hardware.set_target_speed. simpl.
  split; [reflexivity|]. split; [apply clip_bounds; assumption|].
  split; [apply clip_inside|]. split; reflexivity.
Qed.

(** A simulated controller configured for 0..1750 RPM, asked for 2000
    RPM. *)
Lemma set_target_speed_clamped_witness :
  let st := Hardware.init false true 0 1750 0 true in
  let st' := Hardware.set_target_speed st 2000 in
  Hardware.target_speed st' = Np.clip 2000 0 1750 /\
  Hardware.min_speed_rpm st' <= Hardware.target_speed st'
    <= Hardware.max_speed_rpm st' /\
  (Hardware.min_speed_rpm st <= 2000 <= Hardware.max_speed_rpm st ->
   Hardware.target_speed st' = 2000) /\
  Hardware.min_speed_rpm st' = Hardware.min_speed_rpm st /\
  Hardware.max_speed_rpm st' = Hardware.max_speed_rpm st.
Proof.
  apply (set_target_speed_clamped (Hardware.init false true 0 1750 0 true) 2000).
  vm_compute. discriminate.
Defined.

(** ** Training *)

Lemma same_configuration_refl (st : ANFIS.t) : same_configuration st st.
Proof. repeat split. Qed.

Lemma same_configuration_trans (a b c : ANFIS.t) :
  same_configuration a b -> same_configuration b c -> same_configuration a c.
Proof.
  unfold same_configuration. intuition congruence.
Qed.

Lemma calculate_control_configuration (st : ANFIS.t) (error : Q) :
  same_configuration st (fst (ANFIS.calculate_control st error)).
Proof.
  unfold ANFIS.calculate_control, ANFIS.control_try.
  match goal with |- context [bind ?m ?k] => destruct (bind m k) end;
    repeat split.
Qed.

Lemma sample_pass_configuration (data : list (Q * Q * Q)) :
  forall (st : ANFIS.t) (acc : Q),
    same_configuration st (fst (ANFIS.sample_pass st data acc)).
Proof.
  induction data as [|[[e d] tg] rest IH]; intros st acc; simpl.
  - apply same_configuration_refl.
  - pose proof (calculate_control_configuration st e) as Hc.
    destruct (ANFIS.calculate_control st e) as [st1 out]. simpl in Hc.
    eapply same_configuration_trans; [exact Hc | apply IH].
Qed.

Lemma epoch_body_configuration (st : ANFIS.t) (data : list (Q * Q * Q))
    (n k : nat) :
  same_configuration st (fst (ANFIS.epoch_body st data n k)).
Proof.
  unfold ANFIS.epoch_body.
  pose proof (sample_pass_configuration data st 0) as Hp.
  destruct (ANFIS.sample_pass st data 0) as [st1 ee]. simpl in Hp.
  destruct (py_div ee _) as [mse|e]; simpl.
  - destruct (Qltb mse _); simpl; exact Hp.
  - exact Hp.
Qed.

Lemma epoch_loop_configuration (data : list (Q * Q * Q)) (n : nat)
    (epochs : list nat) :
  forall st : ANFIS.t,
    same_configuration st (fst (ANFIS.epoch_loop st data n epochs)).
Proof.
  induction epochs as [|k rest IH]; intro st; simpl.
  - apply same_configuration_refl.
  - pose proof (epoch_body_configuration st data n k) as Hb.
    destruct (ANFIS.epoch_body st data n k) as [st1 [[|]|e]]; simpl in *;
      try exact Hb.
    eapply same_configuration_trans; [exact Hb | apply IH].
Qed.

Lemma train_configuration (st : ANFIS.t) (data : list (Q * Q * Q)) :
  same_configuration st (ANFIS.train st data).
Proof.
  unfold ANFIS.train.
  pose proof (epoch_loop_configuration data (ANFIS.training_epochs st)
                (seq 0 (ANFIS.training_epochs st)) st) as Hl.
  destruct (ANFIS.epoch_loop st data _ _) as [st1 [u|e]]; simpl in *; exact Hl.
Qed.

(** C3 fails on the code: whatever the samples and the number of
    epochs, [train] returns with the consequent parameters it was
    called with; the pass over the samples has no effect on them. *)
Theorem train_leaves_consequent_params (st : ANFIS.t)
    (training_data : list (Q * Q * Q)) :
  ANFIS.consequent_params (ANFIS.train st training_data)
  = ANFIS.consequent_params st.
Proof.
  pose proof (train_configuration st training_data) as H.
  unfold same_configuration in H. tauto.
Qed.

(** ** The rule engine *)

Lemma membership_function_total (x a b c : Q) :
  exists g,
    ANFIS.membership_function x [a; b; c] "trimf" = Ok g /\ 0 <= g <= 1.
Proof.
  unfold ANFIS.membership_function. simpl String.eqb. cbv iota.
  destruct (Qleb x a) eqn:E1; [|destruct (Qleb c x) eqn:E2]; simpl orb;
    cbv iota; qcmp; try (exists 0; split; [reflexivity | lra]).
  destruct (Qltb a x) eqn:E3; [|qcmp; lra].
  destruct (Qleb x b) eqn:E4; simpl andb; cbv iota; qcmp.
  - rewrite py_div_ok by lra. eexists. split; [reflexivity|].
    apply div_unit_interval; lra.
  - rewrite py_div_ok by lra. eexists. split; [reflexivity|].
    apply div_unit_interval; lra.
Qed.

Lemma mf_grades_ok (x : Q) (ranges : list (list Q)) :
  Forall (fun r => List.length r = 3%nat) ranges ->
  exists gs,
    ANFIS.mf_grades x ranges = Ok gs /\
    Forall2 (fun r g =>
               ANFIS.membership_function x r "trimf" = Ok g /\ 0 <= g <= 1)
            ranges gs.
Proof.
  induction 1 as [|r rest Hr _ IH]; simpl.
  - exists []. split; [reflexivity | constructor].
  - destruct r as [|a [|b [|c [|? ?]]]]; try discriminate.
    destruct (membership_function_total x a b c) as [g [Hg Hb]].
    destruct IH as [gs [Hgs Hall]].
    exists (g :: gs). rewrite Hg. simpl. rewrite Hgs. simpl.
    split; [reflexivity|]. constructor; auto.
Qed.

Lemma setitem_middle (pre post : list Q) (y v : Q) :
  Np.setitem (pre ++ y :: post) (List.length pre) v = Ok (pre ++ v :: post).
Proof.
  induction pre as [|h pre IH]; simpl.
  - reflexivity.
  - rewrite IH. reflexivity.
Qed.

Lemma getitem_nth (l : list Q) (i : nat) :
  (i < List.length l)%nat -> Np.getitem l i = Ok (nth i l 0).
Proof.
  intro H. unfold Np.getitem.
  rewrite (nth_error_nth' l 0 H). reflexivity.
Qed.

Lemma for_each_cons {A S : Type} (a : A) (l : list A)
    (body : A -> S -> result S) (s : S) :
  ANFIS.for_each (a :: l) body s
  = bind (body a s) (fun s' => ANFIS.for_each l body s').
Proof. reflexivity. Qed.

Section Loops.

Variables eg dg : list Q.

Lemma inner_loop (i : nat) (js : list nat) :
  (i < List.length eg)%nat ->
  Forall (fun j => (j < List.length dg)%nat) js ->
  forall pre post : list Q,
    (List.length js <= List.length post)%nat ->
    ANFIS.for_each js (ANFIS.rule_body eg dg i)
      (pre ++ post, List.length pre)
    = Ok (pre ++ map (strength_of eg dg i) js ++ skipn (List.length js) post,
          (List.length pre + List.length js)%nat).
Proof.
  intros Hi Hjs. induction Hjs as [|j js Hj _ IH]; intros pre post Hlen.
  - simpl. rewrite Nat.add_0_r. reflexivity.
  - destruct post as [|y post]; [simpl in Hlen; lia|].
    rewrite for_each_cons. unfold ANFIS.rule_body at 1.
    rewrite (getitem_nth eg i Hi), (getitem_nth dg j Hj). simpl bind.
    rewrite setitem_middle. simpl bind.
    change (py_min (nth i eg 0) (nth j dg 0)) with (strength_of eg dg i j).
    replace (pre ++ strength_of eg dg i j :: post)
      with ((pre ++ [strength_of eg dg i j]) ++ post)
      by (rewrite <- app_assoc; reflexivity).
    replace (S (List.length pre)) with (List.length (pre ++ [strength_of eg dg i j]))
      by (rewrite length_app; simpl; lia).
    rewrite IH by (simpl in Hlen; lia).
    rewrite length_app. simpl.
    rewrite <- app_assoc. simpl.
    f_equal. f_equal. lia.
Qed.

Lemma outer_loop (js : list nat) (rows : list nat) :
  Forall (fun j => (j < List.length dg)%nat) js ->
  Forall (fun i => (i < List.length eg)%nat) rows ->
  forall pre post : list Q,
    (List.length rows * List.length js <= List.length post)%nat ->
    ANFIS.for_each rows
      (fun i => ANFIS.for_each js (ANFIS.rule_body eg dg i))
      (pre ++ post, List.length pre)
    = Ok (pre ++ flat_map (fun i => map (strength_of eg dg i) js) rows
              ++ skipn (List.length rows * List.length js) post,
          (List.length pre + List.length rows * List.length js)%nat).
Proof.
  intros Hjs Hrows.
  induction Hrows as [|i rows Hi _ IH]; intros pre post Hlen.
  - simpl. rewrite Nat.add_0_r. reflexivity.
  - rewrite for_each_cons. simpl in Hlen.
    rewrite (inner_loop i js Hi Hjs) by lia. simpl bind.
    rewrite app_assoc.
    replace (List.length pre + List.length js)%nat
      with (List.length (pre ++ map (strength_of eg dg i) js))
      by (rewrite length_app, length_map; reflexivity).
    rewrite IH by (rewrite length_skipn; lia).
    rewrite length_app, length_map.
    rewrite skipn_skipn. simpl flat_map.
    rewrite <- !app_assoc.
    simpl List.length.
    replace (List.length rows * List.length js + List.length js)%nat
      with (S (List.length rows) * List.length js)%nat by (simpl; lia).
    replace (List.length pre + List.length js
             + List.length rows * List.length js)%nat
      with (List.length pre + S (List.length rows) * List.length js)%nat
      by (simpl; lia).
    reflexivity.
Qed.

Lemma flat_map_rows_length (n : nat) (rows : list nat) :
  List.length (flat_map (fun i => map (strength_of eg dg i) (seq 0 n)) rows)
  = (List.length rows * n)%nat.
Proof.
  induction rows as [|i rows IH]; simpl; [reflexivity|].
  rewrite length_app, length_map, length_seq, IH. reflexivity.
Qed.


End Loops.


Lemma Forall2_grades_bounds (x : Q) (ranges : list (list Q)) (gs : list Q) :
  Forall2 (fun r g =>
             ANFIS.membership_function x r "trimf" = Ok g /\ 0 <= g <= 1)
          ranges gs ->
  forall i : nat, 0 <= nth i gs 0 <= 1.
Proof.
  induction 1 as [|r0 g0 ranges gs H0 _ IH]; intro i.
  - destruct i; simpl; lra.
  - destruct i as [|i]; simpl; [tauto | apply IH].
Qed.

Lemma seq_below (n : nat) : Forall (fun j => (j < n)%nat) (seq 0 n).
Proof.
  apply Forall_forall. intros j Hj. apply in_seq in Hj. lia.
Qed.

(** Under a valid configuration the two loops of the rule engine run
    to the end and leave the canonical list of minima. *)
Lemma firing_strengths_canonical (st : ANFIS.t) (error delta_error : Q) :
  valid_configuration st ->
  exists eg dg,
    Forall2 (fun r g =>
               ANFIS.membership_function error r "trimf" = Ok g /\ 0 <= g <= 1)
            (ANFIS.mf_error_ranges st) eg /\
    Forall2 (fun r g =>
               ANFIS.membership_function delta_error r "trimf" = Ok g /\
               0 <= g <= 1)
            (ANFIS.mf_delta_error_ranges st) dg /\
    ANFIS.calculate_rule_firing_strengths st error delta_error
    = Ok (canonical_strengths eg dg (ANFIS.num_mf st)).
Proof.
  intros (Hin & Hrules & Hle & Hld & Hfe & Hfd).
  destruct (mf_grades_ok error _ Hfe) as [eg [Heg HegF]].
  destruct (mf_grades_ok delta_error _ Hfd) as [dg [Hdg HdgF]].
  exists eg, dg. split; [exact HegF|]. split; [exact HdgF|].
  pose proof (Forall2_length HegF) as Hleg.
  pose proof (Forall2_length HdgF) as Hldg.
  unfold ANFIS.calculate_rule_firing_strengths.
  rewrite Heg, Hdg. simpl bind.
  set (n := ANFIS.num_mf st) in *.
  change (Np.zeros (ANFIS.num_rules st), 0%nat)
    with ([] ++ Np.zeros (ANFIS.num_rules st), List.length (@nil Q)).
  assert (Hsz : ANFIS.num_rules st = (n * n)%nat).
  { rewrite Hrules, Hin. simpl. lia. }
  rewrite (outer_loop eg dg (seq 0 n) (seq 0 n)).
  - simpl bind. simpl fst. rewrite length_seq.
    unfold Np.zeros. rewrite Hsz.
    rewrite skipn_all2 by (rewrite repeat_length; lia).
    rewrite app_nil_r. reflexivity.
  - rewrite <- Hldg, Hld. apply seq_below.
  - rewrite <- Hleg, Hle. apply seq_below.
  - rewrite length_seq. unfold Np.zeros. rewrite repeat_length. lia.
Qed.

Lemma canonical_strengths_length (eg dg : list Q) (n : nat) :
  List.length (canonical_strengths eg dg n) = (n * n)%nat.
Proof.
  unfold canonical_strengths.
  rewrite flat_map_rows_length, length_seq. reflexivity.
Qed.




(** ** Normalisation *)

Lemma epsilon_positive : 0 < ANFIS.epsilon.
Proof. unfold ANFIS.epsilon. reflexivity. Qed.

Lemma sum_div_scalar (fs : list Q) (d : Q) :
  Np.sum (Np.div_scalar fs d) == Np.sum fs / d.
Proof.
  induction fs as [|x fs IH]; simpl.
  - unfold Qdiv. ring.
  - rewrite IH. unfold Qdiv. ring.
Qed.

Lemma sum_nonneg (fs : list Q) :
  Forall (fun s => 0 <= s) fs ->
  0 <= Np.sum fs /\ Forall (fun s => s <= Np.sum fs) fs.
Proof.
  induction 1 as [|x fs Hx _ [IH1 IH2]]; simpl.
  - split; [lra | constructor].
  - split; [lra|]. constructor; [lra|].
    eapply Forall_impl; [|exact IH2]. simpl. intros; lra.
Qed.

Lemma sum_all_zero (fs : list Q) :
  Forall (fun s => s == 0) fs -> Np.sum fs == 0.
Proof.
  induction 1 as [|x fs Hx _ IH]; simpl; [reflexivity | lra].
Qed.


Lemma canonical_strengths_bounds (eg dg : list Q) (n : nat) :
  (forall i, 0 <= nth i eg 0 <= 1) ->
  (forall j, 0 <= nth j dg 0 <= 1) ->
  Forall (fun s => 0 <= s <= 1) (canonical_strengths eg dg n).
Proof.
  intros He Hd. apply Forall_forall. intros s Hs.
  unfold canonical_strengths in Hs. apply in_flat_map in Hs.
  destruct Hs as [i [_ Hs]]. apply in_map_iff in Hs.
  destruct Hs as [j [Hs _]]. subst s.
  unfold strength_of. apply py_min_bounds; auto.
Qed.




(** ** The simulated motor *)

Lemma update_simulation_speed (st : Hardware.t) (now n1 n2 : Q) :
  Hardware.current_speed (Hardware._update_simulation st now n1 n2)
  = py_max 0
      (Np.clip
         (Hardware.current_speed st
          + (Hardware.duty_cycle st / 100
             * Hardware.motor_torque_constant Hardware.sim_params
             * Hardware.max_speed Hardware.sim_params
             - Hardware.motor_damping Hardware.sim_params
               * Hardware.current_speed st
             - Hardware.load_torque Hardware.sim_params)
            / Hardware.motor_inertia Hardware.sim_params
            * (now - Hardware.last_sim_time st))
         0 (Hardware.max_speed Hardware.sim_params)
       + n1).
Proof. reflexivity. Qed.

Lemma set_duty_cycle_speed (st : Hardware.t) (d : Q) :
  Hardware.current_speed (Hardware.set_duty_cycle st d)
  = Hardware.current_speed st.
Proof.
  unfold Hardware.set_duty_cycle.
  destruct (Hardware.simulation_mode st); [reflexivity|].
  destruct (Hardware.gpio_available st); [|reflexivity].
  destruct (Qleb 0 _); reflexivity.
Qed.

Lemma write_log_speed (st : Hardware.t) (l : Hardware.log_entry) :
  Hardware.current_speed (Hardware.write_log st l) = Hardware.current_speed st.
Proof. reflexivity. Qed.

Lemma emergency_stop_speed (st : Hardware.t) :
  Hardware.current_speed (Hardware.emergency_stop st)
  = Hardware.current_speed st.
Proof.
  unfold Hardware.emergency_stop.
  rewrite write_log_speed, set_duty_cycle_speed. reflexivity.
Qed.

Lemma step_speed_nonneg (st : Hardware.t) (o : Hardware.op) :
  0 <= Hardware.current_speed st ->
  0 <= Hardware.current_speed (Hardware.step st o).
Proof.
  intro H. destruct o; unfold Hardware.step.
  - exact H.
  - unfold Hardware.stop.
    rewrite write_log_speed, set_duty_cycle_speed. exact H.
  - rewrite emergency_stop_speed. exact H.
  - unfold Hardware.reset_emergency_stop.
    destruct (_ || _); exact H.
  - exact H.
  - rewrite set_duty_cycle_speed. exact H.
  - exact H.
  - unfold Hardware._monitoring_loop_body, Hardware._update_measurements.
    destruct (_ && _); [|exact H].
    destruct (Hardware.simulation_mode st); [|exact H].
    rewrite update_simulation_speed. apply py_max_spec.
  - destruct (_ && _); [|exact H].
    unfold Hardware._emergency_stop_callback.
    destruct (_ && _); [|exact H].
    rewrite emergency_stop_speed. exact H.
  - unfold Hardware.cleanup, Hardware.stop.
    rewrite !write_log_speed, set_duty_cycle_speed. exact H.
Qed.

Lemma run_speed_nonneg (ops : list Hardware.op) :
  forall st : Hardware.t,
    0 <= Hardware.current_speed st ->
    0 <= Hardware.current_speed (Hardware.run st ops).
Proof.
  unfold Hardware.run.
  induction ops as [|o ops IH]; intros st H; simpl; [exact H|].
  apply IH. apply step_speed_nonneg. exact H.
Qed.

Lemma init_speed (gpio simulation : bool) (min_rpm max_rpm now : Q)
    (pin : bool) :
  Hardware.current_speed (Hardware.init gpio simulation min_rpm max_rpm now pin)
  = 0.
Proof.
  unfold Hardware.init. destruct gpio, simulation; reflexivity.
Qed.

(** C4 (as amended).  Within one simulation update the speed is
    integrated, clipped to [0, max_speed], perturbed by the noise and
    floored at 0; so after the update it is at least 0 and at most
    max_speed plus the positive part of the noise, and at most
    max_speed when the noise is not positive.  After every sequence of
    commands and monitoring steps from construction the speed is at
    least 0. *)
Theorem simulated_speed_bounds :
  (forall (st : Hardware.t) (now noise_speed noise_current : Q),
      let dt := now - Hardware.last_sim_time st in
      let acceleration :=
        (Hardware.duty_cycle st / 100
         * Hardware.motor_torque_constant Hardware.sim_params
         * Hardware.max_speed Hardware.sim_params
         - Hardware.motor_damping Hardware.sim_params
           * Hardware.current_speed st
         - Hardware.load_torque Hardware.sim_params)
        / Hardware.motor_inertia Hardware.sim_params in
      let integrated := Hardware.current_speed st + acceleration * dt in
      let clipped :=
        Np.clip integrated 0 (Hardware.max_speed Hardware.sim_params) in
      let st' :=
        Hardware._update_simulation st now noise_speed noise_current in
      0 <= clipped <= Hardware.max_speed Hardware.sim_params /\
      Hardware.current_speed st' = py_max 0 (clipped + noise_speed) /\
      0 <= Hardware.current_speed st' /\
      Hardware.current_speed st'
      <= Hardware.max_speed Hardware.sim_params + py_max 0 noise_speed /\
      (noise_speed <= 0 ->
       Hardware.current_speed st' <= Hardware.max_speed Hardware.sim_params))
  /\
  (forall (gpio simulation pin : bool) (min_rpm max_rpm now : Q)
          (ops : list Hardware.op),
      0 <= Hardware.current_speed
             (Hardware.run
                (Hardware.init gpio simulation min_rpm max_rpm now pin) ops)).
Proof.
  split.
  - intros st now n1 n2 dt acceleration integrated clipped st'.
    assert (Hc : 0 <= clipped <= Hardware.max_speed Hardware.sim_params).
    { apply clip_bounds. simpl. lra. }
    assert (Hs : Hardware.current_speed st' = py_max 0 (clipped + n1))
      by reflexivity.
    split; [exact Hc|]. split; [exact Hs|].
    rewrite Hs.
    destruct (py_max_cases 0 (clipped + n1)) as [[H1 ->]|[H1 ->]];
      destruct (py_max_cases 0 n1) as [[H2 ->]|[H2 ->]];
      repeat split; intros; lra.
  - intros. apply run_speed_nonneg. rewrite init_speed. lra.
Qed.

(** A simulated motor created at time 0 and updated at time 1 with
    the noise -1/10. *)
Lemma simulated_speed_bounds_witness :
  - (1 # 10) <= 0 /\
  Hardware.current_speed
    (Hardware._update_simulation example_hardware 1 (- (1 # 10)) 0)
  <= Hardware.max_speed Hardware.sim_params.
Proof.
  split; [vm_compute; discriminate|].
  destruct (proj1 simulated_speed_bounds example_hardware 1 (- (1 # 10)) 0)
    as (_ & _ & _ & _ & H).
  apply H. vm_compute. discriminate.
Defined.

(** C4 (as stated) fails: a simulated motor created at time 0, started,
    driven at full duty and first updated at time 2 integrates to 3480
    RPM, is clipped to 1750 and then perturbed by the noise 1/10: its
    speed after the update is 1750.1, above max_speed. *)
Lemma simulated_speed_exceeds_max_counterexample :
  let st :=
    Hardware.run example_hardware
      [Hardware.OpStart; Hardware.OpSetDutyCycle 100;
       Hardware.OpMonitor 2 (1 # 10) 0] in
  ~ (0 <= Hardware.current_speed st
     <= Hardware.max_speed Hardware.sim_params).
Proof.
  intros st [_ H]. vm_compute in H. apply H. reflexivity.
Qed.

(** ** The emergency stop *)

Lemma set_duty_cycle_flags (st : Hardware.t) (d : Q) :
  Hardware.emergency_stop_active (Hardware.set_duty_cycle st d)
  = Hardware.emergency_stop_active st /\
  Hardware.running (Hardware.set_duty_cycle st d) = Hardware.running st.
Proof.
  unfold Hardware.set_duty_cycle.
  destruct (Hardware.simulation_mode st); [split; reflexivity|].
  destruct (Hardware.gpio_available st); [|split; reflexivity].
  destruct (Qleb 0 _); split; reflexivity.
Qed.

Lemma write_log_flags (st : Hardware.t) (l : Hardware.log_entry) :
  Hardware.emergency_stop_active (Hardware.write_log st l)
  = Hardware.emergency_stop_active st.
Proof. reflexivity. Qed.

Lemma hardware_emergency_stop_sets (st : Hardware.t) :
  Hardware.emergency_stop_active (Hardware.emergency_stop st) = true /\
  Hardware.running (Hardware.emergency_stop st) = false /\
  Hardware.duty_cycle (Hardware.emergency_stop st) = 0.
Proof.
  unfold Hardware.emergency_stop.
  destruct (set_duty_cycle_flags
              (Hardware.set_running
                 (Hardware.set_emergency_stop_active st true) false) 0)
    as [He Hr].
  repeat split.
  - rewrite write_log_flags, He. reflexivity.
  - change (Hardware.running (Hardware.write_log ?s ?l))
      with (Hardware.running s). rewrite Hr. reflexivity.
Qed.

Lemma hardware_stop_keeps (st : Hardware.t) :
  Hardware.emergency_stop_active (Hardware.stop st)
  = Hardware.emergency_stop_active st.
Proof.
  unfold Hardware.stop.
  rewrite write_log_flags.
  rewrite (proj1 (set_duty_cycle_flags _ _)). reflexivity.
Qed.

Lemma hardware_step_keeps (st : Hardware.t) (o : Hardware.op) :
  clears_emergency_stop (Main.OpHardware o) = false ->
  Hardware.emergency_stop_active st = true ->
  Hardware.emergency_stop_active (Hardware.step st o) = true.
Proof.
  intros Hc H. destruct o; try discriminate Hc; unfold Hardware.step.
  - rewrite hardware_stop_keeps. exact H.
  - exact (proj1 (hardware_emergency_stop_sets _)).
  - exact H.
  - rewrite (proj1 (set_duty_cycle_flags _ _)). exact H.
  - exact H.
  - unfold Hardware._monitoring_loop_body. rewrite H.
    rewrite andb_false_r. exact H.
  - destruct (_ && _); [|exact H].
    unfold Hardware._emergency_stop_callback.
    destruct (_ && _); [exact (proj1 (hardware_emergency_stop_sets _)) | exact H].
  - unfold Hardware.cleanup. rewrite write_log_flags, hardware_stop_keeps.
    exact H.
Qed.

Lemma anfis_control_hardware (st : Main.t) (m : Hardware.measurements) :
  Main.hardware (Main._anfis_control st m) = Main.hardware st \/
  exists c,
    Main.hardware (Main._anfis_control st m)
    = Hardware.set_duty_cycle (Main.hardware st) c.
Proof.
  unfold Main._anfis_control.
  destruct (Main.target_speed st) as [target|]; [|left; reflexivity].
  destruct (ANFIS.calculate_control (Main.anfis st)
              (target - Hardware.m_speed m)) as [a c].
  right. exists c. reflexivity.
Qed.

Lemma control_loop_body_hardware (st : Main.t) (now : Q) :
  Main.hardware (Main._control_loop_body st now) = Main.hardware st \/
  exists c,
    Main.hardware (Main._control_loop_body st now)
    = Hardware.set_duty_cycle (Main.hardware st) c.
Proof.
  unfold Main._control_loop_body, Main._manual_control.
  set (m := Hardware.get_measurements (Main.hardware st) now).
  destruct (Main.logging_enabled st).
  - destruct (String.eqb _ _); [|left; reflexivity].
    apply (anfis_control_hardware (Main.log_data st m) m).
  - destruct (String.eqb _ _); [|left; reflexivity].
    apply (anfis_control_hardware st m).
Qed.

Lemma tick_hardware (st : Main.t) (now : Q) :
  Main.hardware (Main.tick st now) = Main.hardware st \/
  exists c,
    Main.hardware (Main.tick st now)
    = Hardware.set_duty_cycle (Main.hardware st) c.
Proof.
  unfold Main.tick. destruct (Main.running st); [|left; reflexivity].
  apply control_loop_body_hardware.
Qed.

Lemma main_stop_hardware (st : Main.t) :
  Main.hardware (Main.stop st) = Hardware.stop (Main.hardware st).
Proof. reflexivity. Qed.

Lemma main_emergency_stop_hardware (st : Main.t) :
  Main.hardware (Main.emergency_stop st)
  = Hardware.emergency_stop (Hardware.stop (Main.hardware st)).
Proof. reflexivity. Qed.

Lemma main_cleanup_hardware (st : Main.t) :
  Main.hardware (Main.cleanup st)
  = Hardware.cleanup (Hardware.stop (Main.hardware st)).
Proof. reflexivity. Qed.

Lemma main_step_keeps (st : Main.t) (o : Main.op) :
  clears_emergency_stop o = false ->
  Hardware.emergency_stop_active (Main.hardware st) = true ->
  Hardware.emergency_stop_active (Main.hardware (Main.step st o)) = true.
Proof.
  intros Hc H. destruct o; try discriminate Hc; unfold Main.step.
  - rewrite main_stop_hardware, hardware_stop_keeps. exact H.
  - rewrite main_emergency_stop_hardware. exact (proj1 (hardware_emergency_stop_sets _)).
  - exact H.
  - unfold Main.set_control_mode. destruct (_ || _); exact H.
  - destruct (tick_hardware st now) as [E|[c E]]; rewrite E.
    + exact H.
    + rewrite (proj1 (set_duty_cycle_flags _ _)). exact H.
  - exact H.
  - rewrite main_cleanup_hardware. unfold Hardware.cleanup.
    rewrite write_log_flags, !hardware_stop_keeps. exact H.
  - change (Main.hardware (Main.set_hardware st ?h)) with h.
    apply hardware_step_keeps; assumption.
Qed.

Lemma main_run_keeps (ops : list Main.op) :
  forall st : Main.t,
    Forall (fun o => clears_emergency_stop o = false) ops ->
    Hardware.emergency_stop_active (Main.hardware st) = true ->
    Hardware.emergency_stop_active (Main.hardware (Main.run st ops)) = true.
Proof.
  unfold Main.run.
  induction ops as [|o ops IH]; intros st Hops H; simpl; [exact H|].
  inversion Hops; subst.
  apply IH; [assumption|]. apply main_step_keeps; assumption.
Qed.

(** C2 (as amended).  After [emergency_stop] of either controller the
    flag [emergency_stop_active] is set, and it stays set through every
    sequence of commands, scheduler ticks, training runs, monitoring
    steps and button events that contains neither
    [reset_emergency_stop] nor [start]: besides the reset, which
    clears the flag exactly when it returns true (always in
    simulation, on real hardware when the stop input is inactive),
    [start] clears it too, without looking at the stop input. *)
Theorem emergency_stop_latched_until_reset_or_start :
  (forall (st : Main.t) (ops : list Main.op),
      Forall (fun o => clears_emergency_stop o = false) ops ->
      Hardware.emergency_stop_active
        (Main.hardware (Main.run (Main.emergency_stop st) ops)) = true /\
      Hardware.emergency_stop_active
        (Main.hardware
           (Main.run (Main.step st (Main.OpHardware Hardware.OpEmergencyStop))
              ops)) = true)
  /\
  (forall h : Hardware.t,
      Hardware.emergency_stop_active (Hardware.start h) = false /\
      Hardware.running (Hardware.start h) = true)
  /\
  (forall h : Hardware.t,
      Hardware.emergency_stop_active h = true ->
      let '(h', ok) := Hardware.reset_emergency_stop h in
      ok = (Hardware.simulation_mode h
            || (Hardware.gpio_available h && Hardware.pin_emergency_stop h)) /\
      Hardware.emergency_stop_active h' = negb ok).
Proof.
  split; [|split].
  - intros st ops Hops. split.
    + apply main_run_keeps; [exact Hops|].
      rewrite main_emergency_stop_hardware.
      exact (proj1 (hardware_emergency_stop_sets _)).
    + apply main_run_keeps; [exact Hops|].
      unfold Main.step.
      change (Main.hardware (Main.set_hardware st ?h)) with h.
      exact (proj1 (hardware_emergency_stop_sets _)).
  - intro h. split; reflexivity.
  - intros h H. unfold Hardware.reset_emergency_stop.
    destruct (_ || _); simpl; [split; reflexivity|].
    split; [reflexivity | exact H].
Qed.

(** An emergency stop of the example system followed by a stop, a
    change of mode, a tick, a duty-cycle command and a monitoring
    step. *)
Lemma emergency_stop_latched_witness :
  let ops :=
    [Main.OpStop; Main.OpSetControlMode "anfis"; Main.OpTick 1;
     Main.OpHardware (Hardware.OpSetDutyCycle 40);
     Main.OpHardware (Hardware.OpMonitor 2 0 0)] in
  Forall (fun o => clears_emergency_stop o = false) ops /\
  Hardware.emergency_stop_active
    (Main.hardware (Main.run (Main.emergency_stop (Main.start example_main))
                      ops)) = true.
Proof.
  intro ops.
  assert (Hops : Forall (fun o => clears_emergency_stop o = false) ops)
    by (repeat constructor).
  split; [exact Hops|].
  apply (proj1 emergency_stop_latched_until_reset_or_start
           (Main.start example_main) ops Hops).
Defined.

(** C2 (as stated) fails: after an emergency stop, [start] alone, with
    no reset, leaves the system running with the emergency stop
    cleared. *)
Lemma emergency_stop_cleared_by_start_counterexample :
  let ops := [Main.OpStart] in
  Forall (fun o => is_reset o = false) ops /\
  Hardware.emergency_stop_active
    (Main.hardware (Main.emergency_stop (Main.start example_main))) = true /\
  Hardware.emergency_stop_active
    (Main.hardware
       (Main.run (Main.emergency_stop (Main.start example_main)) ops))
  = false.
Proof.
  split; [repeat constructor|]. split; vm_compute; reflexivity.
Qed.

(** ** The scheduler tick *)

Lemma tick_not_running (st : Main.t) (now : Q) :
  Main.running st = false -> Main.tick st now = st.
Proof. intro H. unfold Main.tick. rewrite H. reflexivity. Qed.

Lemma anfis_control_duty (st : Main.t) (m : Hardware.measurements)
    (target : Q) :
  Main.target_speed st = Some target ->
  Hardware.duty_cycle (Main.hardware (Main._anfis_control st m))
  = Np.clip
      (snd (ANFIS.calculate_control (Main.anfis st)
              (target - Hardware.m_speed m)))
      (-100) 100.
Proof.
  intro Ht. unfold Main._anfis_control. rewrite Ht.
  destruct (ANFIS.calculate_control (Main.anfis st)
              (target - Hardware.m_speed m)) as [a c].
  reflexivity.
Qed.

(** C1 fails on the code.  The example system on real hardware,
    started in anfis mode with the target 0, makes the controller
    output 50 / (1 + 1e-10).  When the stop button is pressed,
    [HardwareController.emergency_stop] sets the duty cycle to 0 and
    the safety state to EmergencyStopped, and leaves the scheduler's
    flag set: the next turn of the control loop writes the controller
    output to the duty cycle and to the PWM.  When
    [MainController.emergency_stop] is called, the flag is cleared
    first; a turn of the loop that had tested the flag before the call
    still runs its body after it, with the same write.  Nothing in
    [_control_loop] or [_anfis_control] reads the safety state. *)
Theorem control_loop_writes_after_emergency_stop :
  let st :=
    Main.run example_real_main
      [Main.OpStart; Main.OpSetControlMode "anfis";
       Main.OpSetTargetSpeed 0] in
  let pressed := Main.step st (Main.OpHardware (Hardware.OpPin false)) in
  let stopped := Main.emergency_stop st in
  (Spec.safety (Main.hardware pressed) = Spec.EmergencyStopped /\
   Hardware.duty_cycle (Main.hardware pressed) = 0 /\
   Main.running pressed = true /\
   ~ Hardware.duty_cycle
       (Main.hardware (Main._control_loop_body pressed 1)) == 0 /\
   ~ Hardware.pwm (Main.hardware (Main._control_loop_body pressed 1)) == 0)
  /\
  (Spec.safety (Main.hardware stopped) = Spec.EmergencyStopped /\
   Hardware.duty_cycle (Main.hardware stopped) = 0 /\
   Main.running stopped = false /\
   ~ Hardware.duty_cycle
       (Main.hardware (Main._control_loop_body stopped 1)) == 0 /\
   ~ Hardware.pwm (Main.hardware (Main._control_loop_body stopped 1)) == 0).
Proof.
  intros st pressed stopped.
  split.
  - split; [vm_compute; reflexivity|].
    split; [vm_compute; reflexivity|].
    split; [vm_compute; reflexivity|].
    split; intro H; vm_compute in H; discriminate.
  - split; [vm_compute; reflexivity|].
    split; [vm_compute; reflexivity|].
    split; [vm_compute; reflexivity|].
    split; intro H; vm_compute in H; discriminate.
Qed.

(** ** The epochs of training *)

Lemma calculate_control_training_epoch (st : ANFIS.t) (error : Q) :
  ANFIS.training_epoch (fst (ANFIS.calculate_control st error))
  = ANFIS.training_epoch st /\
  ANFIS.is_trained (fst (ANFIS.calculate_control st error))
  = ANFIS.is_trained st.
Proof.
  unfold ANFIS.calculate_control, ANFIS.control_try.
  match goal with |- context [bind ?m ?k] => destruct (bind m k) end;
    split; reflexivity.
Qed.

Lemma sample_pass_training_epoch (data : list (Q * Q * Q)) :
  forall (st : ANFIS.t) (acc : Q),
    ANFIS.training_epoch (fst (ANFIS.sample_pass st data acc))
    = ANFIS.training_epoch st /\
    ANFIS.is_trained (fst (ANFIS.sample_pass st data acc))
    = ANFIS.is_trained st.
Proof.
  induction data as [|[[e d] tg] rest IH]; intros st acc; simpl.
  - split; reflexivity.
  - pose proof (calculate_control_training_epoch st e) as [H1 H2].
    destruct (ANFIS.calculate_control st e) as [st1 out]. simpl in H1, H2.
    destruct (IH st1 (acc + (tg - out) * (tg - out))) as [H3 H4].
    split; congruence.
Qed.

Lemma sample_pass_cons (st : ANFIS.t) (error delta_error target : Q)
    (rest : list (Q * Q * Q)) (acc : Q) :
  ANFIS.sample_pass st ((error, delta_error, target) :: rest) acc
  = ANFIS.sample_pass (fst (ANFIS.calculate_control st error)) rest
      (acc
       + (target - snd (ANFIS.calculate_control st error))
         * (target - snd (ANFIS.calculate_control st error))).
Proof.
  simpl. destruct (ANFIS.calculate_control st error). reflexivity.
Qed.


Lemma sample_count_nonzero (data : list (Q * Q * Q)) :
  data <> [] -> ~ inject_Z (Z.of_nat (List.length data)) == 0.
Proof.
  intros Hne H. destruct data as [|s rest]; [contradiction|].
  unfold Qeq, inject_Z in H. simpl in H. lia.
Qed.

Lemma epoch_loop_step (st : ANFIS.t) (data : list (Q * Q * Q))
    (n k : nat) (rest : list nat) :
  data <> [] ->
  let st1 := fst (ANFIS.sample_pass st data 0) in
  let mse :=
    snd (ANFIS.sample_pass st data 0)
    / inject_Z (Z.of_nat (List.length data)) in
  ANFIS.epoch_loop st data n (k :: rest)
  = if Qltb mse (ANFIS.error_goal st)
    then (ANFIS.write_log (after_epoch st1 k n mse) goal_reached, Ok tt)
    else ANFIS.epoch_loop (after_epoch st1 k n mse) data n rest.
Proof.
  intros Hne st1 mse. subst st1 mse.
  simpl ANFIS.epoch_loop. unfold ANFIS.epoch_body.
  pose proof (sample_pass_configuration data st 0) as Hc.
  destruct (ANFIS.sample_pass st data 0) as [st1 ee]. simpl fst in *.
  simpl snd.
  rewrite (py_div_ok ee _ (sample_count_nonzero data Hne)).
  assert (Hg : ANFIS.error_goal st1 = ANFIS.error_goal st)
    by (unfold same_configuration in Hc; tauto).
  change (ANFIS.error_goal (ANFIS.write_log ?s ?l))
    with (ANFIS.error_goal s).
  change (ANFIS.error_goal (ANFIS.set_training_epoch ?s ?l))
    with (ANFIS.error_goal s).
  rewrite Hg.
  destruct (Qltb _ (ANFIS.error_goal st)); reflexivity.
Qed.




(** * Further properties of the code *)

(** ** The controller outside its intended configuration *)



(** X2.  The controller is wired for two inputs: when the configured
    number of input variables is not 2, every call of
    [calculate_control] fails inside its [try] block, whatever the
    error, logs the exception and returns 0. *)
Theorem calculate_control_fails_unless_two_inputs (st : ANFIS.t) (error : Q) :
  ANFIS.num_inputs st <> 2%nat ->
  exists e,
    ANFIS.calculate_control st error
    = (ANFIS.write_log (ANFIS.set_last_error st error)
         (ANFIS.LogError "Error calculating control" e),
       0).
Proof.
  intro Hn. unfold ANFIS.calculate_control, ANFIS.control_try.
  set (last := match ANFIS.last_error st with None => error | Some l => l end).
  set (delta := (error - last) / ANFIS.sample_time).
  set (st' := ANFIS.set_last_error st error).
  assert (Hw : exists e, ANFIS.weighted_output st' error delta = Raise e).
  { unfold ANFIS.weighted_output.
    destruct (ANFIS.normalized_firing st' error delta) as [nf|e];
      [|exists e; reflexivity].
    simpl bind. unfold Np.dot.
    change (ANFIS.num_inputs st') with (ANFIS.num_inputs st).
    destruct (Nat.eqb_spec (ANFIS.num_inputs st + 1) 3) as [E|E]; [lia|].
    simpl List.length.
    destruct (Nat.eqb_spec (ANFIS.num_inputs st + 1) 3) as [E'|E']; [lia|].
    exists ValueError. reflexivity. }
  destruct Hw as [e He]. rewrite He. exists e. reflexivity.
Qed.

(** The example configuration with three input variables declared. *)
Lemma calculate_control_fails_unless_two_inputs_witness :
  let st :=
    ANFIS.init 3 3 3 (ANFIS.mf_error_ranges example_anfis)
      (ANFIS.mf_delta_error_ranges example_anfis)
      (1 # 100) (9 # 10) (1 # 1000) (repeat [50; 1; 2; 0] 27) in
  exists e,
    ANFIS.calculate_control st 0
    = (ANFIS.write_log (ANFIS.set_last_error st 0)
         (ANFIS.LogError "Error calculating control" e),
       0).
Proof.
  intro st.
  apply (calculate_control_fails_unless_two_inputs st 0).
  simpl. lia.
Defined.

(** ** The controller in a valid configuration *)

Lemma abs_mul_le (a b x y : Q) :
  Qabs a <= x -> Qabs b <= y -> Qabs (a * b) <= x * y.
Proof.
  intros Ha Hb. rewrite Qabs_Qmult.
  apply Qmult_le_compat_nonneg; (split; [apply Qabs_nonneg | assumption]).
Qed.

Lemma dot1_three_bound (r0 r1 r2 e d K E D : Q) :
  Qabs r0 <= K -> Qabs r1 <= K -> Qabs r2 <= K ->
  Qabs e <= E -> Qabs d <= D ->
  Qabs (r0 * 1 + (r1 * e + (r2 * d + 0))) <= K + K * E + K * D.
Proof.
  intros H0 H1 H2 He Hd.
  pose proof (abs_mul_le r1 e K E H1 He) as P1.
  pose proof (abs_mul_le r2 d K D H2 Hd) as P2.
  apply Qabs_Qle_condition in H0.
  apply Qabs_Qle_condition in P1.
  apply Qabs_Qle_condition in P2.
  apply Qabs_Qle_condition. lra.
Qed.

Lemma dot_rows_three (m : list (list Q)) (a b c : Q) :
  Forall (fun r => List.length r = 3%nat) m ->
  exists outs,
    Np.dot_rows m [a; b; c] = Ok outs /\ List.length outs = List.length m.
Proof.
  induction 1 as [|r m Hr _ [outs [Ho Hl]]].
  - exists []. split; reflexivity.
  - destruct r as [|r0 [|r1 [|r2 [|? ?]]]]; try discriminate Hr.
    simpl. rewrite Ho. simpl. eexists. split; [reflexivity|].
    simpl. rewrite Hl. reflexivity.
Qed.

Lemma dot_rows_three_bound (m : list (list Q)) (e d K E D : Q) :
  Forall (fun r => List.length r = 3%nat) m ->
  Forall (Forall (fun x => Qabs x <= K)) m ->
  Qabs e <= E -> Qabs d <= D ->
  forall outs : list Q,
    Np.dot_rows m [1; e; d] = Ok outs ->
    Forall (fun o => Qabs o <= K + K * E + K * D) outs.
Proof.
  intros Hlen Hm He Hd. induction Hlen as [|r m Hr Hlen IH]; intros outs Ho.
  - simpl in Ho. injection Ho as <-. constructor.
  - inversion Hm as [|r' m' Hrow Hrest]; subst.
    destruct r as [|r0 [|r1 [|r2 [|? ?]]]]; try discriminate Hr.
    destruct (dot_rows_three m 1 e d Hlen) as [outs' [Ho' _]].
    simpl in Ho. rewrite Ho' in Ho. simpl in Ho. injection Ho as <-.
    inversion Hrow as [|? ? B0 Hrow1]; subst.
    inversion Hrow1 as [|? ? B1 Hrow2]; subst.
    inversion Hrow2 as [|? ? B2 _]; subst.
    constructor.
    + apply dot1_three_bound; assumption.
    + apply IH; assumption.
Qed.

Lemma mul_elementwise_products (u : list Q) :
  forall v : list Q,
    List.length u = List.length v ->
    Np.mul_elementwise u v = Ok (products u v).
Proof.
  induction u as [|x u IH]; intros [|y v] Hlen; try discriminate Hlen.
  - reflexivity.
  - simpl in Hlen. injection Hlen as Hlen.
    simpl. rewrite (IH v Hlen). reflexivity.
Qed.

Lemma mul_same_length (u v : list Q) :
  List.length u = List.length v -> Np.mul u v = Ok (products u v).
Proof.
  intro Hlen.
  destruct u as [|x [|x' u]]; destruct v as [|y [|y' v]];
    try discriminate Hlen; try reflexivity.
  unfold Np.mul. apply mul_elementwise_products. exact Hlen.
Qed.

Lemma products_zero (u : list Q) :
  forall v : list Q,
    Forall (fun x => x == 0) u -> Forall (fun x => x == 0) (products u v).
Proof.
  induction u as [|x u IH]; intros v Hall; [constructor|].
  destruct v as [|y v]; [constructor|].
  inversion Hall as [|? ? Hx Hrest]; subst.
  unfold products. simpl. constructor.
  - rewrite Hx. ring.
  - apply IH. exact Hrest.
Qed.

Lemma products_bound (M : Q) (u : list Q) :
  0 <= M ->
  forall v : list Q,
    Forall (fun x => 0 <= x < 1) u ->
    Forall (fun o => Qabs o <= M) v ->
    Forall (fun p => Qabs p <= M) (products u v) /\
    Qabs (Np.sum (products u v)) <= M * Np.sum u.
Proof.
  intro HM. induction u as [|x u IH]; intros v Hu Hv.
  - split; [constructor|]. unfold products. simpl. lra.
  - inversion Hu as [|? ? Hx Hu']; subst.
    assert (Hnn : Forall (fun s => 0 <= s) u).
    { eapply Forall_impl; [|exact Hu']. simpl. tauto. }
    destruct (sum_nonneg u Hnn) as [Hs _].
    pose proof (Qmult_le_0_compat M (Np.sum u) HM Hs) as HMs.
    pose proof (Qmult_le_0_compat M x HM (proj1 Hx)) as HMx.
    destruct v as [|y v].
    + split; [constructor|]. unfold products. simpl. lra.
    + inversion Hv as [|? ? Hy Hv']; subst.
      destruct (IH v Hu' Hv') as [IH1 IH2].
      assert (Hax : Qabs x <= x) by (rewrite Qabs_pos; lra).
      pose proof (abs_mul_le x y x M Hax Hy) as Hxy.
      assert (HxM : x * M <= 1 * M)
        by (apply Qmult_le_compat_r; [lra | exact HM]).
      change (products (x :: u) (y :: v)) with (x * y :: products u v).
      change (Np.sum (x * y :: products u v))
        with (x * y + Np.sum (products u v)).
      change (Np.sum (x :: u)) with (x + Np.sum u).
      split.
      * constructor; [|exact IH1].
        apply Qabs_Qle_condition in Hxy. apply Qabs_Qle_condition. lra.
      * apply Qabs_Qle_condition in Hxy. apply Qabs_Qle_condition in IH2.
        apply Qabs_Qle_condition. lra.
Qed.

Lemma normalized_strengths_bounds (fs : list Q) :
  Forall (fun s => 0 <= s <= 1) fs ->
  Forall (fun x => 0 <= x < 1)
         (Np.div_scalar fs (Np.sum fs + ANFIS.epsilon)) /\
  0 <= Np.sum (Np.div_scalar fs (Np.sum fs + ANFIS.epsilon)) < 1.
Proof.
  intro Hb.
  assert (Hnn : Forall (fun s => 0 <= s) fs).
  { eapply Forall_impl; [|exact Hb]. simpl. tauto. }
  destruct (sum_nonneg fs Hnn) as [HS Hle].
  pose proof epsilon_positive as Heps.
  set (D := Np.sum fs + ANFIS.epsilon).
  assert (HD : 0 < D) by (unfold D; lra).
  split.
  - unfold Np.div_scalar. apply Forall_map.
    apply Forall_forall. intros x Hx.
    pose proof (proj1 (Forall_forall _ _) Hnn x Hx) as Hx0. simpl in Hx0.
    pose proof (proj1 (Forall_forall _ _) Hle x Hx) as Hx1. simpl in Hx1.
    split.
    + apply Qle_shift_div_l; [exact HD | lra].
    + apply Qlt_shift_div_r; [exact HD | unfold D; lra].
  - rewrite (sum_div_scalar fs D). split.
    + apply Qle_shift_div_l; [exact HD | lra].
    + apply Qlt_shift_div_r; [exact HD | unfold D; lra].
Qed.

Lemma weighted_output_ok (st : ANFIS.t) (error delta_error : Q) :
  valid_configuration st ->
  consequents_shaped st ->
  exists fs outs,
    ANFIS.calculate_rule_firing_strengths st error delta_error = Ok fs /\
    Forall (fun s => 0 <= s <= 1) fs /\
    ANFIS.normalized_firing st error delta_error
    = Ok (Np.div_scalar fs (Np.sum fs + ANFIS.epsilon)) /\
    Np.dot_rows (ANFIS.consequent_params st) [1; error; delta_error]
    = Ok outs /\
    ANFIS.weighted_output st error delta_error
    = Ok (Np.sum
            (products (Np.div_scalar fs (Np.sum fs + ANFIS.epsilon)) outs)) /\
    (Forall (fun x => x == 0) fs ->
     Np.sum (products (Np.div_scalar fs (Np.sum fs + ANFIS.epsilon)) outs)
     == 0).
Proof.
  intros Hv [Hrows Hcols].
  destruct (firing_strengths_canonical st error delta_error Hv)
    as (eg & dg & HegF & HdgF & Hfs).
  destruct Hv as (Hin & Hrules & _).
  set (fs := canonical_strengths eg dg (ANFIS.num_mf st)) in *.
  assert (Hlen : List.length fs = ANFIS.num_rules st).
  { unfold fs. rewrite canonical_strengths_length, Hrules, Hin. simpl. lia. }
  assert (Hb : Forall (fun s => 0 <= s <= 1) fs).
  { apply canonical_strengths_bounds.
    - apply (Forall2_grades_bounds _ _ _ HegF).
    - apply (Forall2_grades_bounds _ _ _ HdgF). }
  assert (Hcols3 : Forall (fun r => List.length r = 3%nat)
                     (ANFIS.consequent_params st)).
  { eapply Forall_impl; [|exact Hcols]. simpl. intros r Hr.
    rewrite Hr, Hin. reflexivity. }
  destruct (dot_rows_three _ 1 error delta_error Hcols3) as [outs [Ho Hol]].
  set (nf := Np.div_scalar fs (Np.sum fs + ANFIS.epsilon)).
  assert (Hw : Np.mul nf outs = Ok (products nf outs)).
  { apply mul_same_length. unfold nf, Np.div_scalar.
    rewrite length_map. congruence. }
  assert (Hnf : ANFIS.normalized_firing st error delta_error = Ok nf).
  { unfold ANFIS.normalized_firing. rewrite Hfs. reflexivity. }
  exists fs, outs.
  split; [exact Hfs|]. split; [exact Hb|]. split; [exact Hnf|].
  split; [exact Ho|]. split.
  - unfold ANFIS.weighted_output. rewrite Hnf. simpl bind.
    unfold Np.dot. rewrite Hin. simpl Nat.eqb.
    cbv iota. rewrite Ho. simpl bind. rewrite Hw. reflexivity.
  - intro Hall. apply sum_all_zero. apply products_zero.
    unfold nf, Np.div_scalar. apply Forall_map.
    eapply Forall_impl; [|exact Hall]. simpl. intros x Hx.
    rewrite Hx. unfold Qdiv. ring.
Qed.

Lemma delta_error_bound (error last : Q) :
  in_range error -> in_range last ->
  Qabs ((error - last) / ANFIS.sample_time) <= 200 * float_bound.
Proof.
  unfold in_range. intros He Hl.
  apply Qabs_Qle_condition in He. apply Qabs_Qle_condition in Hl.
  assert (E : (error - last) / ANFIS.sample_time == 100 * (error - last)).
  { unfold ANFIS.sample_time. field. }
  rewrite E. apply Qabs_Qle_condition. lra.
Qed.

(** X3.  With a valid configuration, a consequent array of the shape
    the constructor gives it and numbers in range (the error, the
    previous error, the parameters of the sets and the consequent
    coefficients at most 1e100 in magnitude), [calculate_control] never
    takes its [except] branch: it returns a value within [-100, 100],
    logs nothing, and changes nothing but [last_error], which becomes
    the error it was called with.  No intermediate value leaves the
    range of doubles: the delta_error is at most 2e102 in magnitude,
    and every rule output, every weighted rule output and their sum at
    most 2.02e202, below the largest double. *)
Theorem calculate_control_succeeds_when_valid (st : ANFIS.t) (error : Q) :
  valid_configuration st ->
  consequents_shaped st ->
  controller_in_range st ->
  in_range error ->
  exists control,
    ANFIS.calculate_control st error
    = (ANFIS.set_last_error st error, control) /\
    -100 <= control <= 100 /\
    exists delta_error normalized rule_outputs,
      Qabs delta_error <= 200 * float_bound /\
      ANFIS.normalized_firing (ANFIS.set_last_error st error)
        error delta_error = Ok normalized /\
      Forall (fun x => 0 <= x < 1) normalized /\
      Np.dot_rows (ANFIS.consequent_params st) [1; error; delta_error]
      = Ok rule_outputs /\
      Forall (fun o => Qabs o <= intermediate_bound) rule_outputs /\
      Forall (fun p => Qabs p <= intermediate_bound)
             (products normalized rule_outputs) /\
      Qabs (Np.sum (products normalized rule_outputs))
      <= intermediate_bound /\
      control
      = Np.clip (Np.sum (products normalized rule_outputs)) (-100) 100 /\
      intermediate_bound < max_double.
Proof.
  intros Hv Hs (_ & _ & Hcoef & Hlast) He.
  unfold ANFIS.calculate_control, ANFIS.control_try.
  set (last := match ANFIS.last_error st with None => error | Some l => l end).
  set (delta := (error - last) / ANFIS.sample_time).
  set (st' := ANFIS.set_last_error st error).
  assert (Hl : in_range last).
  { unfold last. destruct (ANFIS.last_error st) as [l|]; [|exact He].
    apply Hlast. reflexivity. }
  pose proof (delta_error_bound error last He Hl) as Hdelta. fold delta in Hdelta.
  destruct (weighted_output_ok st' error delta Hv Hs)
    as (fs & outs & _ & Hb & Hnf & Ho & Hw & _).
  destruct (normalized_strengths_bounds fs Hb) as [Hnfb Hsum].
  set (nf := Np.div_scalar fs (Np.sum fs + ANFIS.epsilon)) in *.
  assert (Hcols3 : Forall (fun r => List.length r = 3%nat)
                     (ANFIS.consequent_params st)).
  { destruct Hs as [_ Hcols]. destruct Hv as (Hin & _).
    eapply Forall_impl; [|exact Hcols]. simpl. intros r Hr.
    rewrite Hr, Hin. reflexivity. }
  pose proof (dot_rows_three_bound (ANFIS.consequent_params st) error delta
                float_bound float_bound (200 * float_bound)
                Hcols3 Hcoef He Hdelta outs Ho) as Houts.
  fold intermediate_bound in Houts.
  destruct (products_bound intermediate_bound nf intermediate_bound_nonneg
              outs Hnfb Houts) as [Hp Hps].
  rewrite Hw. simpl bind.
  eexists. split; [reflexivity|]. split; [apply clip_bounds; lra|].
  exists delta, nf, outs.
  split; [exact Hdelta|]. split; [exact Hnf|]. split; [exact Hnfb|].
  split; [exact Ho|]. split; [exact Houts|]. split; [exact Hp|].
  split; [|split; [reflexivity | exact intermediate_bound_below_max_double]].
  pose proof intermediate_bound_nonneg as HM.
  assert (Hle : intermediate_bound * Np.sum nf <= intermediate_bound * 1).
  { apply Qmult_le_compat_nonneg; split; lra. }
  lra.
Qed.

Lemma example_anfis_valid : valid_configuration example_anfis.
Proof.
  unfold valid_configuration. simpl.
  repeat split; try reflexivity; repeat constructor.
Qed.

Lemma example_anfis_shaped : consequents_shaped example_anfis.
Proof.
  unfold consequents_shaped. simpl.
  split; [reflexivity | repeat constructor].
Qed.

(** The example controller at the error 25. *)
Lemma calculate_control_succeeds_when_valid_witness :
  exists control,
    ANFIS.calculate_control example_anfis 25
    = (ANFIS.set_last_error example_anfis 25, control) /\
    -100 <= control <= 100.
Proof.
  assert (He : in_range 25) by in_range_closed.
  destruct (calculate_control_succeeds_when_valid example_anfis 25
              example_anfis_valid example_anfis_shaped
              example_anfis_in_range He) as (control & H1 & H2 & _).
  exists control. split; [exact H1 | exact H2].
Defined.

Lemma grades_outside (x : Q) (ranges : list (list Q)) (gs : list Q) :
  Forall2 (fun r g =>
             ANFIS.membership_function x r "trimf" = Ok g /\ 0 <= g <= 1)
          ranges gs ->
  outside_all_sets x ranges ->
  forall i : nat, nth i gs 0 = 0.
Proof.
  unfold outside_all_sets.
  induction 1 as [|r g ranges gs [Hg _] _ IH]; intros Hout i.
  - destruct i; reflexivity.
  - inversion Hout as [|r' rs' (a & b & c & -> & Hx) Hrest]; subst.
    destruct i as [|i]; simpl; [|apply IH; assumption].
    unfold ANFIS.membership_function in Hg. simpl String.eqb in Hg.
    cbv iota in Hg.
    assert (Hb : Qleb x a || Qleb c x = true).
    { apply orb_true_iff. destruct Hx as [Hx|Hx];
        [left | right]; apply Qleb_spec; exact Hx. }
    rewrite Hb in Hg. congruence.
Qed.

(** X4.  The controller has a dead zone: with numbers in range, when
    the error lies at or beyond a foot of every error set (in the
    example, any error of magnitude 100 or more, up to 1e100), no rule
    fires, every normalised strength is 0 and [calculate_control]
    returns 0, whatever the consequent parameters. *)
Theorem calculate_control_zero_outside_sets (st : ANFIS.t) (error : Q) :
  valid_configuration st ->
  consequents_shaped st ->
  controller_in_range st ->
  in_range error ->
  outside_all_sets error (ANFIS.mf_error_ranges st) ->
  snd (ANFIS.calculate_control st error) == 0 /\
  ANFIS.log (fst (ANFIS.calculate_control st error)) = ANFIS.log st.
Proof.
  intros Hv Hs _ _ Hout. unfold ANFIS.calculate_control, ANFIS.control_try.
  set (last := match ANFIS.last_error st with None => error | Some l => l end).
  set (delta := (error - last) / ANFIS.sample_time).
  set (st' := ANFIS.set_last_error st error).
  destruct (firing_strengths_canonical st' error delta Hv)
    as (eg & dg & HegF & HdgF & Hfs).
  destruct (weighted_output_ok st' error delta Hv Hs)
    as (fs & outs & Hfs' & _ & _ & _ & Hw & Hzero).
  rewrite Hfs in Hfs'. injection Hfs' as <-.
  assert (Hall : Forall (fun x => x == 0)
                   (canonical_strengths eg dg (ANFIS.num_mf st'))).
  { apply Forall_forall. intros s Hin.
    unfold canonical_strengths in Hin. apply in_flat_map in Hin.
    destruct Hin as [i [_ Hin]]. apply in_map_iff in Hin.
    destruct Hin as [j [<- _]].
    unfold strength_of, py_min.
    rewrite (grades_outside error _ eg HegF Hout i).
    pose proof (Forall2_grades_bounds _ _ _ HdgF j) as [Hj _].
    destruct (Qltb (nth j dg 0) 0) eqn:E; qcmp; lra. }
  specialize (Hzero Hall).
  rewrite Hw. simpl.
  split; [|reflexivity].
  rewrite clip_inside by lra. exact Hzero.
Qed.

(** The example controller at the error 200, beyond every error set. *)
Lemma calculate_control_zero_outside_sets_witness :
  snd (ANFIS.calculate_control example_anfis 200) == 0 /\
  ANFIS.log (fst (ANFIS.calculate_control example_anfis 200))
  = ANFIS.log example_anfis.
Proof.
  assert (He : in_range 200) by in_range_closed.
  apply (calculate_control_zero_outside_sets example_anfis 200
           example_anfis_valid example_anfis_shaped
           example_anfis_in_range He).
  unfold outside_all_sets. simpl.
  repeat constructor.
  - exists (-100), (-100), 0. split; [reflexivity|]. right. lra.
  - exists (-50), 0, 50. split; [reflexivity|]. right. lra.
  - exists 0, 100, 100. split; [reflexivity|]. right. lra.
Defined.

(** ** What training leaves behind *)

Lemma calculate_control_last_error (st : ANFIS.t) (error : Q) :
  ANFIS.last_error (fst (ANFIS.calculate_control st error)) = Some error.
Proof.
  unfold ANFIS.calculate_control, ANFIS.control_try.
  match goal with |- context [bind ?m ?k] => destruct (bind m k) end;
    reflexivity.
Qed.

Lemma sample_pass_last_error (data : list (Q * Q * Q)) :
  forall (st : ANFIS.t) (acc : Q),
    data <> [] ->
    ANFIS.last_error (fst (ANFIS.sample_pass st data acc))
    = Some (last_sample_error data).
Proof.
  induction data as [|[[e d] tg] rest IH]; intros st acc Hne;
    [contradiction|].
  rewrite sample_pass_cons.
  destruct rest as [|s rest'].
  - simpl. apply calculate_control_last_error.
  - rewrite IH by discriminate. reflexivity.
Qed.

Lemma after_epoch_fields (s : ANFIS.t) (k n : nat) (mse : Q) :
  ANFIS.training_epoch (after_epoch s k n mse)
  = (ANFIS.training_epoch s + 1)%nat /\
  ANFIS.is_trained (after_epoch s k n mse) = ANFIS.is_trained s /\
  ANFIS.last_error (after_epoch s k n mse) = ANFIS.last_error s /\
  same_configuration s (after_epoch s k n mse).
Proof. repeat split. Qed.

Lemma epoch_loop_nonempty (data : list (Q * Q * Q)) (n : nat) :
  data <> [] ->
  forall (epochs : list nat) (s : ANFIS.t),
    exists s',
      ANFIS.epoch_loop s data n epochs = (s', Ok tt) /\
      (ANFIS.training_epoch s <= ANFIS.training_epoch s'
       <= ANFIS.training_epoch s + List.length epochs)%nat /\
      ANFIS.is_trained s' = ANFIS.is_trained s /\
      (epochs <> [] ->
       (ANFIS.training_epoch s < ANFIS.training_epoch s')%nat /\
       ANFIS.last_error s' = Some (last_sample_error data)).
Proof.
  intros Hne epochs. induction epochs as [|k rest IH]; intro s.
  - exists s. split; [reflexivity|]. split; [simpl; lia|].
    split; [reflexivity|]. intro H. contradiction.
  - rewrite (epoch_loop_step s data n k rest Hne).
    set (s1 := fst (ANFIS.sample_pass s data 0)).
    set (mse := snd (ANFIS.sample_pass s data 0)
                / inject_Z (Z.of_nat (List.length data))).
    destruct (after_epoch_fields s1 k n mse) as (He & Ht & Hl & _).
    destruct (sample_pass_training_epoch data s 0) as [He1 Ht1].
    pose proof (sample_pass_last_error data s 0 Hne) as Hl1.
    fold s1 in He1, Ht1, Hl1.
    destruct (Qltb mse (ANFIS.error_goal s)).
    + eexists. split; [reflexivity|].
      change (ANFIS.training_epoch (ANFIS.write_log ?x ?l))
        with (ANFIS.training_epoch x).
      change (ANFIS.is_trained (ANFIS.write_log ?x ?l))
        with (ANFIS.is_trained x).
      change (ANFIS.last_error (ANFIS.write_log ?x ?l))
        with (ANFIS.last_error x).
      rewrite He, Ht, Hl, He1, Ht1, Hl1. simpl List.length.
      split; [lia|]. split; [reflexivity|]. intros _. split; [lia|reflexivity].
    + destruct (IH (after_epoch s1 k n mse)) as (s' & Hs' & Hb & Htr & Hrest).
      exists s'. split; [exact Hs'|].
      rewrite He, He1 in Hb. rewrite Ht, Ht1 in Htr. simpl List.length.
      split; [lia|]. split; [exact Htr|]. intros _. split; [lia|].
      destruct rest as [|k' rest'].
      * simpl in Hs'. injection Hs' as <-. rewrite Hl. exact Hl1.
      * apply Hrest. discriminate.
Qed.

(** X5.  [is_trained] says that training ran, not that it converged:
    on every non-empty sample set with numbers in range [train] ends
    with [is_trained] set, whether or not the error goal was reached,
    after at least one epoch (if any is configured) and at most
    [training_epochs] epochs.  With zero epochs configured it only sets
    the flag, even on an empty sample set. *)
Theorem train_sets_is_trained (st : ANFIS.t) (data : list (Q * Q * Q)) :
  controller_in_range st ->
  samples_in_range data ->
  (data <> [] ->
   ANFIS.is_trained (ANFIS.train st data) = true /\
   (ANFIS.training_epoch st <= ANFIS.training_epoch (ANFIS.train st data)
    <= ANFIS.training_epoch st + ANFIS.training_epochs st)%nat /\
   ((1 <= ANFIS.training_epochs st)%nat ->
    (ANFIS.training_epoch st
     < ANFIS.training_epoch (ANFIS.train st data))%nat)) /\
  (ANFIS.training_epochs st = 0%nat ->
   ANFIS.train st data = ANFIS.set_is_trained st true).
Proof.
  intros _ _. split.
  - intro Hne. unfold ANFIS.train.
    destruct (epoch_loop_nonempty data (ANFIS.training_epochs st) Hne
                (seq 0 (ANFIS.training_epochs st)) st)
      as (s' & Hs' & Hb & _ & Hrest).
    rewrite Hs'. rewrite length_seq in Hb.
    split; [reflexivity|]. split; [exact Hb|].
    intro Hep. apply Hrest.
    destruct (ANFIS.training_epochs st); [lia | discriminate].
  - intro H0. unfold ANFIS.train. rewrite H0. reflexivity.
Qed.

(** The sample of the counterexample to the early stop: three epochs,
    none of them reaching the goal. *)
Lemma train_sets_is_trained_witness :
  let data := [(0, 5, 60)] in
  controller_in_range example_anfis /\
  samples_in_range data /\
  ANFIS.is_trained (ANFIS.train example_anfis data) = true /\
  (ANFIS.training_epoch example_anfis
   < ANFIS.training_epoch (ANFIS.train example_anfis data))%nat.
Proof.
  intro data.
  assert (Hdata : samples_in_range data) by samples_in_range_closed.
  split; [exact example_anfis_in_range|]. split; [exact Hdata|].
  destruct (proj1 (train_sets_is_trained example_anfis data
                     example_anfis_in_range Hdata))
    as (H1 & _ & H3); [discriminate|].
  split; [exact H1|]. apply H3. vm_compute. lia.
Defined.



(** ** Epochs repeat themselves *)

Lemma weighted_output_same_configuration (a b : ANFIS.t)
    (error delta_error : Q) :
  same_configuration a b ->
  ANFIS.weighted_output b error delta_error
  = ANFIS.weighted_output a error delta_error.
Proof.
  intros (H1 & H2 & H3 & H4 & H5 & H6 & _ & _).
  unfold ANFIS.weighted_output, ANFIS.normalized_firing,
    ANFIS.calculate_rule_firing_strengths.
  rewrite H1, H2, H3, H4, H5, H6. reflexivity.
Qed.

Lemma calculate_control_same_state (a b : ANFIS.t) (error : Q) :
  same_control_state a b ->
  snd (ANFIS.calculate_control b error)
  = snd (ANFIS.calculate_control a error) /\
  same_control_state (fst (ANFIS.calculate_control a error))
                     (fst (ANFIS.calculate_control b error)).
Proof.
  intros [Hc Hl]. unfold ANFIS.calculate_control, ANFIS.control_try.
  rewrite Hl.
  set (last := match ANFIS.last_error a with None => error | Some l => l end).
  set (delta := (error - last) / ANFIS.sample_time).
  assert (Hc' : same_configuration (ANFIS.set_last_error a error)
                  (ANFIS.set_last_error b error)) by exact Hc.
  rewrite (weighted_output_same_configuration _ _ error delta Hc').
  destruct (ANFIS.weighted_output (ANFIS.set_last_error a error) error delta);
    simpl; (split; [reflexivity|]); split; try exact Hc; reflexivity.
Qed.

Lemma sample_pass_same_state (data : list (Q * Q * Q)) :
  forall (a b : ANFIS.t) (acc : Q),
    same_control_state a b ->
    snd (ANFIS.sample_pass b data acc) = snd (ANFIS.sample_pass a data acc) /\
    same_control_state (fst (ANFIS.sample_pass a data acc))
                       (fst (ANFIS.sample_pass b data acc)).
Proof.
  induction data as [|[[e d] tg] rest IH]; intros a b acc H.
  - simpl. split; [reflexivity | exact H].
  - rewrite !sample_pass_cons.
    destruct (calculate_control_same_state a b e H) as [Ho Hs].
    rewrite Ho. apply IH. exact Hs.
Qed.

Lemma epoch_loop_steady (st : ANFIS.t) (data : list (Q * Q * Q)) (n : nat)
    (ref : ANFIS.t) :
  data <> [] ->
  same_configuration st ref ->
  ANFIS.last_error ref = Some (last_sample_error data) ->
  ANFIS.error_goal st <= epoch_mse ref data ->
  forall (epochs : list nat) (s : ANFIS.t),
    same_configuration st s ->
    ANFIS.last_error s = Some (last_sample_error data) ->
    exists s',
      ANFIS.epoch_loop s data n epochs = (s', Ok tt) /\
      ANFIS.training_epoch s'
      = (ANFIS.training_epoch s + List.length epochs)%nat.
Proof.
  intros Hne Hcr Hlr Hgoal epochs.
  induction epochs as [|k rest IH]; intros s Hcs Hls.
  - exists s. split; [reflexivity | simpl; lia].
  - rewrite (epoch_loop_step s data n k rest Hne).
    assert (Hsame : same_control_state ref s).
    { split; [|congruence].
      unfold same_configuration in *. intuition congruence. }
    destruct (sample_pass_same_state data ref s 0 Hsame) as [Hsnd _].
    rewrite Hsnd. fold (epoch_mse ref data).
    assert (Hg : ANFIS.error_goal s = ANFIS.error_goal st)
      by (unfold same_configuration in Hcs; tauto).
    rewrite Hg.
    assert (Hf : Qltb (epoch_mse ref data) (ANFIS.error_goal st) = false)
      by (apply Qltb_false; exact Hgoal).
    rewrite Hf.
    set (s1 := fst (ANFIS.sample_pass s data 0)).
    destruct (after_epoch_fields s1 k n (epoch_mse ref data))
      as (He & _ & Hl & Hc).
    destruct (sample_pass_training_epoch data s 0) as [He1 _].
    pose proof (sample_pass_last_error data s 0 Hne) as Hl1.
    pose proof (sample_pass_configuration data s 0) as Hc1.
    fold s1 in He1, Hl1, Hc1.
    destruct (IH (after_epoch s1 k n (epoch_mse ref data))) as (s' & Hs' & Hn).
    + eapply same_configuration_trans; [exact Hcs|].
      eapply same_configuration_trans; [exact Hc1 | exact Hc].
    + rewrite Hl. exact Hl1.
    + exists s'. split; [exact Hs'|].
      rewrite Hn, He, He1. simpl. lia.
Qed.

(** X7.  Since the pass over the samples changes no parameter, every
    epoch after the first measures the same mean squared error: on a
    non-empty sample set with numbers in range, once neither the first
    nor the second epoch has reached the error goal, no later epoch
    does, and [train] runs all the configured epochs. *)
Theorem train_runs_all_epochs_once_stalled (st : ANFIS.t)
    (data : list (Q * Q * Q)) :
  data <> [] ->
  controller_in_range st ->
  samples_in_range data ->
  let n := ANFIS.training_epochs st in
  let second :=
    after_epoch (fst (ANFIS.sample_pass st data 0)) 0 n (epoch_mse st data) in
  ANFIS.error_goal st <= epoch_mse st data ->
  ANFIS.error_goal st <= epoch_mse second data ->
  ANFIS.training_epoch (ANFIS.train st data)
  = (ANFIS.training_epoch st + ANFIS.training_epochs st)%nat /\
  ANFIS.is_trained (ANFIS.train st data) = true.
Proof.
  intros Hne _ _ n second H1 H2. unfold ANFIS.train. fold n.
  destruct n as [|m] eqn:En.
  - simpl. split; [lia | reflexivity].
  - simpl seq. rewrite (epoch_loop_step st data (S m) 0 (seq 1 m) Hne).
    fold (epoch_mse st data).
    assert (Hf : Qltb (epoch_mse st data) (ANFIS.error_goal st) = false)
      by (apply Qltb_false; exact H1).
    rewrite Hf. fold second.
    set (s1 := fst (ANFIS.sample_pass st data 0)) in *.
    destruct (after_epoch_fields s1 0 (S m) (epoch_mse st data))
      as (He & _ & Hl & Hc).
    destruct (sample_pass_training_epoch data st 0) as [He1 _].
    pose proof (sample_pass_last_error data st 0 Hne) as Hl1.
    pose proof (sample_pass_configuration data st 0) as Hc1.
    fold s1 in He1, Hl1, Hc1. fold second in He, Hl, Hc.
    assert (Hcs : same_configuration st second).
    { eapply same_configuration_trans; [exact Hc1 | exact Hc]. }
    assert (Hls : ANFIS.last_error second = Some (last_sample_error data))
      by (rewrite Hl; exact Hl1).
    destruct (epoch_loop_steady st data (S m) second Hne Hcs Hls H2
                (seq 1 m) second Hcs Hls) as (s' & Hs' & Hn).
    rewrite Hs'. split; [|reflexivity].
    change (ANFIS.training_epoch (ANFIS.set_is_trained s' true))
      with (ANFIS.training_epoch s').
    rewrite Hn, He, He1, length_seq. lia.
Qed.

(** The sample of the counterexample to the early stop: the first two
    epochs measure the error 100, and all three epochs run. *)
Lemma train_runs_all_epochs_once_stalled_witness :
  let data := [(0, 5, 60)] in
  ANFIS.training_epoch (ANFIS.train example_anfis data)
  = (ANFIS.training_epoch example_anfis
     + ANFIS.training_epochs example_anfis)%nat /\
  ANFIS.is_trained (ANFIS.train example_anfis data) = true.
Proof.
  intro data.
  apply (train_runs_all_epochs_once_stalled example_anfis data).
  - discriminate.
  - exact example_anfis_in_range.
  - samples_in_range_closed.
  - vm_compute. discriminate.
  - vm_compute. discriminate.
Defined.

(** ** Invariants of the hardware controller *)

Lemma set_duty_cycle_fields (h : Hardware.t) (d : Q) :
  let h' := Hardware.set_duty_cycle h d in
  let c := Np.clip d (-100) 100 in
  Hardware.duty_cycle h' = c /\
  Hardware.current_speed h' = Hardware.current_speed h /\
  Hardware.current_current h' = Hardware.current_current h /\
  Hardware.simulation_mode h' = Hardware.simulation_mode h /\
  Hardware.gpio_available h' = Hardware.gpio_available h /\
  (Hardware.simulation_mode h = true ->
   Hardware.pwm h' = Hardware.pwm h /\
   Hardware.pin_motor_in1 h' = Hardware.pin_motor_in1 h /\
   Hardware.pin_motor_in2 h' = Hardware.pin_motor_in2 h) /\
  (Hardware.simulation_mode h = false ->
   Hardware.gpio_available h = true ->
   Hardware.pwm h' = Qabs c /\
   Hardware.pin_motor_in1 h' = Qleb 0 c /\
   Hardware.pin_motor_in2 h' = negb (Qleb 0 c)).
Proof.
  intros h' c. subst h'. unfold Hardware.set_duty_cycle. fold c.
  destruct (Hardware.simulation_mode h) eqn:Es;
    destruct (Hardware.gpio_available h) eqn:Eg;
    destruct (Qleb 0 c);
    repeat split; intros; try reflexivity; try discriminate;
    try exact Es; try exact Eg.
Qed.

Lemma set_duty_cycle_invariant (h : Hardware.t) (d : Q) :
  hardware_invariant h -> hardware_invariant (Hardware.set_duty_cycle h d).
Proof.
  intros (Hd & Hs & Hc & Hsim & Hreal).
  pose proof (clip_bounds d (-100) 100) as Hclip.
  destruct (set_duty_cycle_fields h d)
    as (Fd & Fs & Fc & Fm & Fg & Fsim & Freal).
  unfold hardware_invariant.
  rewrite Fd, Fs, Fc, Fm, Fg.
  split; [apply Hclip; lra|]. split; [exact Hs|]. split; [exact Hc|].
  split.
  - intro Es. destruct (Fsim Es) as (-> & -> & ->). apply Hsim. exact Es.
  - intro Es. destruct (Hreal Es) as (Hg & _ & _).
    destruct (Freal Es Hg) as (-> & -> & ->).
    split; [exact Hg|]. split; [reflexivity|].
    destruct (Qleb 0 (Np.clip d (-100) 100)); reflexivity.
Qed.

Lemma update_simulation_invariant (h : Hardware.t) (now n1 n2 : Q) :
  hardware_invariant h ->
  hardware_invariant (Hardware._update_simulation h now n1 n2).
Proof.
  intros (Hd & Hs & Hc & Hsim & Hreal).
  unfold hardware_invariant, Hardware._update_simulation.
  cbn [Hardware.duty_cycle Hardware.current_speed Hardware.current_current
       Hardware.simulation_mode Hardware.pwm Hardware.pin_motor_in1
       Hardware.pin_motor_in2 Hardware.gpio_available Hardware.set_simulated].
  split; [exact Hd|]. split; [apply py_max_spec|].
  split; [apply py_max_spec|]. split; assumption.
Qed.

Lemma flags_only_invariant (h h' : Hardware.t) :
  Hardware.duty_cycle h' = Hardware.duty_cycle h ->
  Hardware.current_speed h' = Hardware.current_speed h ->
  Hardware.current_current h' = Hardware.current_current h ->
  Hardware.simulation_mode h' = Hardware.simulation_mode h ->
  Hardware.gpio_available h' = Hardware.gpio_available h ->
  Hardware.pwm h' = Hardware.pwm h ->
  Hardware.pin_motor_in1 h' = Hardware.pin_motor_in1 h ->
  Hardware.pin_motor_in2 h' = Hardware.pin_motor_in2 h ->
  hardware_invariant h -> hardware_invariant h'.
Proof.
  unfold hardware_invariant.
  intros -> -> -> -> -> -> -> ->. tauto.
Qed.

Lemma stop_invariant (h : Hardware.t) :
  hardware_invariant h -> hardware_invariant (Hardware.stop h).
Proof.
  intro H. unfold Hardware.stop.
  apply (flags_only_invariant
           (Hardware.set_duty_cycle (Hardware.set_running h false) 0));
    try reflexivity.
  apply set_duty_cycle_invariant.
  apply (flags_only_invariant h); try reflexivity. exact H.
Qed.

Lemma emergency_stop_invariant (h : Hardware.t) :
  hardware_invariant h -> hardware_invariant (Hardware.emergency_stop h).
Proof.
  intro H. unfold Hardware.emergency_stop.
  apply (flags_only_invariant
           (Hardware.set_duty_cycle
              (Hardware.set_running
                 (Hardware.set_emergency_stop_active h true) false) 0));
    try reflexivity.
  apply set_duty_cycle_invariant.
  apply (flags_only_invariant h); try reflexivity. exact H.
Qed.

Lemma hardware_step_invariant (h : Hardware.t) (o : Hardware.op) :
  hardware_invariant h -> hardware_invariant (Hardware.step h o).
Proof.
  intro H. destruct o; unfold Hardware.step.
  - apply (flags_only_invariant h); try reflexivity. exact H.
  - apply stop_invariant. exact H.
  - apply emergency_stop_invariant. exact H.
  - unfold Hardware.reset_emergency_stop. destruct (_ || _); [|exact H].
    apply (flags_only_invariant h); try reflexivity. exact H.
  - apply (flags_only_invariant h); try reflexivity. exact H.
  - apply set_duty_cycle_invariant. exact H.
  - exact H.
  - unfold Hardware._monitoring_loop_body, Hardware._update_measurements.
    destruct (_ && _); [|exact H].
    destruct (Hardware.simulation_mode h); [|exact H].
    apply update_simulation_invariant. exact H.
  - assert (Hp : hardware_invariant (Hardware.set_pin_emergency_stop h level))
      by (apply (flags_only_invariant h); try reflexivity; exact H).
    destruct (_ && _); [|exact Hp].
    unfold Hardware._emergency_stop_callback.
    destruct (_ && _); [|exact Hp].
    apply emergency_stop_invariant. exact Hp.
  - unfold Hardware.cleanup.
    apply (flags_only_invariant (Hardware.stop h)); try reflexivity.
    apply stop_invariant. exact H.
Qed.

Lemma init_invariant (gpio simulation pin : bool) (min_rpm max_rpm now : Q) :
  hardware_invariant (Hardware.init gpio simulation min_rpm max_rpm now pin).
Proof.
  unfold hardware_invariant, Hardware.init.
  destruct gpio, simulation; simpl;
    repeat split; try lra; try reflexivity; try discriminate;
      try (vm_compute; discriminate).
Qed.

Lemma hardware_run_invariant (ops : list Hardware.op) :
  forall h : Hardware.t,
    hardware_invariant h -> hardware_invariant (Hardware.run h ops).
Proof.
  unfold Hardware.run. induction ops as [|o ops IH]; intros h H; simpl.
  - exact H.
  - apply IH. apply hardware_step_invariant. exact H.
Qed.

(** X8.  The commanded duty cycle is always a percentage: after every
    sequence of calls of the hardware controller's commands, monitoring
    steps and button events from construction, whatever numbers the
    commands are given, the duty cycle lies within [-100, 100]. *)
Theorem duty_cycle_always_within_range
    (gpio simulation pin : bool) (min_rpm max_rpm now : Q)
    (ops : list Hardware.op) :
  let h :=
    Hardware.run (Hardware.init gpio simulation min_rpm max_rpm now pin) ops in
  -100 <= Hardware.duty_cycle h <= 100.
Proof.
  intro h.
  assert (H : hardware_invariant h).
  { apply hardware_run_invariant. apply init_invariant. }
  apply H.
Qed.

(** X9.  The GPIO outputs follow the duty cycle on real hardware and
    are never driven in simulation: after every sequence of calls of
    the hardware controller's commands, monitoring steps and button
    events from construction that does not contain [cleanup] (which
    releases the channels), a real controller has the PWM at the
    magnitude of the duty cycle, within [0, 100], and never both
    direction outputs high; a simulated controller has the PWM at 0 and
    both direction outputs low. *)
Theorem gpio_outputs_follow_duty_cycle
    (gpio simulation pin : bool) (min_rpm max_rpm now : Q)
    (ops : list Hardware.op) :
  Forall (fun o => is_cleanup o = false) ops ->
  let h :=
    Hardware.run (Hardware.init gpio simulation min_rpm max_rpm now pin) ops in
  (Hardware.simulation_mode h = false ->
   Hardware.pwm h = Qabs (Hardware.duty_cycle h) /\
   0 <= Hardware.pwm h <= 100 /\
   Hardware.pin_motor_in1 h && Hardware.pin_motor_in2 h = false) /\
  (Hardware.simulation_mode h = true ->
   Hardware.pwm h = 0 /\
   Hardware.pin_motor_in1 h = false /\
   Hardware.pin_motor_in2 h = false).
Proof.
  intros _ h.
  assert (H : hardware_invariant h).
  { apply hardware_run_invariant. apply init_invariant. }
  destruct H as (Hd & _ & _ & Hsim & Hreal).
  split; [|exact Hsim].
  intro Hs. destruct (Hreal Hs) as (_ & Hp & Hpins).
  split; [exact Hp|]. split; [|exact Hpins].
  rewrite Hp. split; [apply Qabs_nonneg|].
  apply Qabs_Qle_condition. exact Hd.
Qed.

(** A real controller driven in reverse at 40 percent. *)
Lemma gpio_outputs_follow_duty_cycle_witness :
  let ops := [Hardware.OpStart; Hardware.OpSetDutyCycle (-40)] in
  let h := Hardware.run (Hardware.init true false 0 1750 0 true) ops in
  Forall (fun o => is_cleanup o = false) ops /\
  Hardware.simulation_mode h = false /\
  Hardware.pwm h = Qabs (Hardware.duty_cycle h) /\
  0 <= Hardware.pwm h <= 100 /\
  Hardware.pin_motor_in1 h && Hardware.pin_motor_in2 h = false.
Proof.
  intros ops h.
  assert (Hops : Forall (fun o => is_cleanup o = false) ops)
    by (repeat constructor).
  assert (Hs : Hardware.simulation_mode h = false) by (vm_compute; reflexivity).
  split; [exact Hops|]. split; [exact Hs|].
  apply (proj1 (gpio_outputs_follow_duty_cycle true false true 0 1750 0
                  ops Hops)).
  exact Hs.
Defined.

(** ** Stopping *)

Lemma clip_zero : Np.clip 0 (-100) 100 = 0.
Proof. reflexivity. Qed.

Lemma set_duty_cycle_zero (h : Hardware.t) :
  let h' := Hardware.set_duty_cycle h 0 in
  Hardware.duty_cycle h' = 0 /\
  Hardware.running h' = Hardware.running h /\
  (Hardware.simulation_mode h = false ->
   Hardware.gpio_available h = true ->
   Hardware.pwm h' = 0 /\
   Hardware.pin_motor_in1 h' = true /\
   Hardware.pin_motor_in2 h' = false).
Proof.
  intro h'. subst h'.
  destruct (set_duty_cycle_fields h 0) as (Fd & _ & _ & _ & _ & _ & Freal).
  rewrite clip_zero in Fd, Freal.
  split; [exact Fd|]. split; [apply set_duty_cycle_flags|].
  intros Es Eg. destruct (Freal Es Eg) as (-> & -> & ->).
  repeat split.
Qed.

Lemma hardware_stop_fields (h : Hardware.t) :
  Hardware.duty_cycle (Hardware.stop h) = 0 /\
  Hardware.running (Hardware.stop h) = false /\
  (Hardware.simulation_mode h = false ->
   Hardware.gpio_available h = true ->
   Hardware.pwm (Hardware.stop h) = 0 /\
   Hardware.pin_motor_in1 (Hardware.stop h) = true /\
   Hardware.pin_motor_in2 (Hardware.stop h) = false).
Proof.
  unfold Hardware.stop.
  destruct (set_duty_cycle_zero (Hardware.set_running h false))
    as (Hd & Hr & Hreal).
  split; [exact Hd|]. split; [exact Hr|]. exact Hreal.
Qed.

Lemma hardware_emergency_stop_fields (h : Hardware.t) :
  Hardware.duty_cycle (Hardware.emergency_stop h) = 0 /\
  Hardware.running (Hardware.emergency_stop h) = false /\
  (Hardware.simulation_mode h = false ->
   Hardware.gpio_available h = true ->
   Hardware.pwm (Hardware.emergency_stop h) = 0 /\
   Hardware.pin_motor_in1 (Hardware.emergency_stop h) = true /\
   Hardware.pin_motor_in2 (Hardware.emergency_stop h) = false).
Proof.
  unfold Hardware.emergency_stop.
  destruct (set_duty_cycle_zero
              (Hardware.set_running
                 (Hardware.set_emergency_stop_active h true) false))
    as (Hd & Hr & Hreal).
  split; [exact Hd|]. split; [exact Hr|]. exact Hreal.
Qed.

Lemma hardware_cleanup_fields (h : Hardware.t) :
  Hardware.duty_cycle (Hardware.cleanup h) = 0 /\
  Hardware.running (Hardware.cleanup h) = false.
Proof.
  unfold Hardware.cleanup.
  destruct (hardware_stop_fields h) as (Hd & Hr & _).
  split; [exact Hd | exact Hr].
Qed.

(** X10.  Every way of stopping zeroes the actuation: after [stop],
    [emergency_stop] and [cleanup] the controller is not running and
    its duty cycle is exactly 0; after [stop] and [emergency_stop] on
    real hardware the PWM is 0 with the direction outputs set to
    forward ([cleanup] goes on to release the GPIO channels). *)
Theorem every_stop_zeroes_actuation (h : Hardware.t) :
  (forall h' : Hardware.t,
      h' = Hardware.stop h \/ h' = Hardware.emergency_stop h ->
      Hardware.duty_cycle h' = 0 /\
      Hardware.running h' = false /\
      (Hardware.simulation_mode h = false ->
       Hardware.gpio_available h = true ->
       Hardware.pwm h' = 0 /\
       Hardware.pin_motor_in1 h' = true /\
       Hardware.pin_motor_in2 h' = false)) /\
  Hardware.duty_cycle (Hardware.cleanup h) = 0 /\
  Hardware.running (Hardware.cleanup h) = false.
Proof.
  split.
  - intros h' [->| ->].
    + exact (hardware_stop_fields h).
    + exact (hardware_emergency_stop_fields h).
  - exact (hardware_cleanup_fields h).
Qed.

(** A real controller running in reverse, then stopped. *)
Lemma every_stop_zeroes_actuation_witness :
  let h :=
    Hardware.run example_real_hardware
      [Hardware.OpStart; Hardware.OpSetDutyCycle (-40)] in
  Hardware.duty_cycle (Hardware.stop h) = 0 /\
  Hardware.running (Hardware.stop h) = false /\
  Hardware.pwm (Hardware.stop h) = 0 /\
  Hardware.pin_motor_in1 (Hardware.stop h) = true /\
  Hardware.pin_motor_in2 (Hardware.stop h) = false.
Proof.
  intro h.
  destruct (proj1 (every_stop_zeroes_actuation h) (Hardware.stop h))
    as (Hd & Hr & Hreal); [left; reflexivity|].
  split; [exact Hd|]. split; [exact Hr|].
  apply Hreal; vm_compute; reflexivity.
Defined.

Lemma monitoring_loop_body_stopped (h : Hardware.t) (now n1 n2 : Q) :
  Hardware.running h = false \/ Hardware.emergency_stop_active h = true ->
  Hardware._monitoring_loop_body h now n1 n2 = h.
Proof.
  intro H. unfold Hardware._monitoring_loop_body.
  destruct H as [-> | ->]; [reflexivity|].
  rewrite andb_false_r. reflexivity.
Qed.

(** X11.  While the controller is not running or the emergency stop is
    active, the monitoring loop updates nothing: however many
    monitoring steps pass, the state stays as it was, so the simulated
    speed keeps its last value, and the time of the last simulation
    step is not advanced. *)
Theorem monitoring_is_frozen_while_stopped (h : Hardware.t)
    (steps : list (Q * Q * Q)) :
  Hardware.running h = false \/ Hardware.emergency_stop_active h = true ->
  Hardware.run h (monitor_ops steps) = h.
Proof.
  intro H. unfold Hardware.run, monitor_ops.
  induction steps as [|[[now n1] n2] steps IH]; simpl; [reflexivity|].
  rewrite (monitoring_loop_body_stopped h now n1 n2 H). exact IH.
Qed.

(** A simulated motor brought to speed and stopped: two later
    monitoring steps leave its speed where it was. *)
Lemma monitoring_is_frozen_while_stopped_witness :
  let h :=
    Hardware.run example_hardware
      [Hardware.OpStart; Hardware.OpSetDutyCycle 100;
       Hardware.OpMonitor (1 # 100) 0 0; Hardware.OpStop] in
  Hardware.run h (monitor_ops [(1, 0, 0); (2, 0, 0)]) = h /\
  0 < Hardware.current_speed h.
Proof.
  intro h. split.
  - apply (monitoring_is_frozen_while_stopped h [(1, 0, 0); (2, 0, 0)]).
    left. vm_compute. reflexivity.
  - vm_compute. reflexivity.
Defined.

(** ** The simulated plant *)

Lemma update_simulation_speed_range (h : Hardware.t) (now n1 n2 : Q) :
  0 <= Hardware.current_speed (Hardware._update_simulation h now n1 n2) /\
  (n1 <= 0 ->
   Hardware.current_speed (Hardware._update_simulation h now n1 n2) <= 1750).
Proof.
  rewrite update_simulation_speed.
  match goal with
  | |- context [Np.clip ?x 0 ?m] =>
      pose proof (clip_bounds x 0 m) as Hc; set (c := Np.clip x 0 m) in *
  end.
  assert (Hm : Hardware.max_speed Hardware.sim_params == 1750) by reflexivity.
  assert (Hc' : 0 <= c <= 1750).
  { rewrite <- Hm. apply Hc. rewrite Hm. lra. }
  destruct (py_max_cases 0 (c + n1)) as [[H1 ->]|[H1 ->]]; split; intros; lra.
Qed.

Lemma update_simulation_current (h : Hardware.t) (now n1 n2 : Q) :
  Hardware.current_current (Hardware._update_simulation h now n1 n2)
  = py_max 0
      (Hardware.base_current Hardware.sim_params
       + Qabs (Hardware.duty_cycle h / 100) * 2
       + Hardware.current_speed (Hardware._update_simulation h now n1 n2)
         / Hardware.max_speed Hardware.sim_params * 3
       + n2).
Proof. reflexivity. Qed.

(** X12.  The simulated current draw stays in a physical range: after
    a simulation update with the duty cycle within [-100, 100] the
    current is never negative, is at least the no-load current 0.2 A
    when the current noise is not negative, and is at most 5.2 A when
    neither noise draw is positive. *)
Theorem simulated_current_bounds (h : Hardware.t) (now n1 n2 : Q) :
  -100 <= Hardware.duty_cycle h <= 100 ->
  let h' := Hardware._update_simulation h now n1 n2 in
  0 <= Hardware.current_current h' /\
  (0 <= n2 -> 1 # 5 <= Hardware.current_current h') /\
  (n1 <= 0 -> n2 <= 0 -> Hardware.current_current h' <= 26 # 5).
Proof.
  intros Hd h'. subst h'.
  rewrite update_simulation_current.
  destruct (update_simulation_speed_range h now n1 n2) as [Hs0 Hs1].
  set (s := Hardware.current_speed (Hardware._update_simulation h now n1 n2))
    in *.
  assert (Hb : Hardware.base_current Hardware.sim_params == 1 # 5)
    by reflexivity.
  assert (Hm : Hardware.max_speed Hardware.sim_params == 1750) by reflexivity.
  assert (Ha : 0 <= Qabs (Hardware.duty_cycle h / 100) <= 1).
  { split; [apply Qabs_nonneg|]. apply Qabs_Qle_condition. split.
    - apply Qle_shift_div_l; lra.
    - apply Qle_shift_div_r; lra. }
  set (a := Qabs (Hardware.duty_cycle h / 100)) in *.
  assert (Hr0 : 0 <= s / Hardware.max_speed Hardware.sim_params).
  { apply Qle_shift_div_l; [rewrite Hm; lra | lra]. }
  assert (Hr1 : n1 <= 0 -> s / Hardware.max_speed Hardware.sim_params <= 1).
  { intro Hn. apply Qle_shift_div_r; [rewrite Hm; lra|].
    rewrite Hm. specialize (Hs1 Hn). lra. }
  set (r := s / Hardware.max_speed Hardware.sim_params) in *.
  set (b := Hardware.base_current Hardware.sim_params) in *.
  destruct (py_max_cases 0 (b + a * 2 + r * 3 + n2)) as [[H1 ->]|[H1 ->]].
  - split; [lra|]. split; intros; [|lra].
    lra.
  - split; [lra|]. split; intros; [lra|].
    specialize (Hr1 H). lra.
Qed.

(** A simulated motor at full duty, updated without noise. *)
Lemma simulated_current_bounds_witness :
  let h :=
    Hardware.run example_hardware
      [Hardware.OpStart; Hardware.OpSetDutyCycle 100] in
  let h' := Hardware._update_simulation h (1 # 100) 0 0 in
  1 # 5 <= Hardware.current_current h' /\
  Hardware.current_current h' <= 26 # 5.
Proof.
  intros h h'.
  destruct (simulated_current_bounds h (1 # 100) 0 0) as (_ & Hlo & Hhi).
  - vm_compute. split; discriminate.
  - split; [apply Hlo | apply Hhi]; vm_compute; discriminate.
Defined.

(** X13.  Above its balance speed the simulated motor never speeds
    up: at or above the speed 1.75 * duty - 1 at which the torque of
    the duty cycle balances damping and load (174 RPM at full duty), a
    simulation step with time going forward and no positive noise does
    not increase the speed. *)
Theorem simulated_speed_ceiling (h : Hardware.t) (now n1 n2 : Q) :
  0 <= Hardware.current_speed h ->
  (7 # 4) * Hardware.duty_cycle h - 1 <= Hardware.current_speed h ->
  Hardware.last_sim_time h <= now ->
  n1 <= 0 ->
  Hardware.current_speed (Hardware._update_simulation h now n1 n2)
  <= Hardware.current_speed h.
Proof.
  intros Hs0 Hbal Hdt Hn.
  rewrite update_simulation_speed.
  set (s := Hardware.current_speed h) in *.
  set (d := Hardware.duty_cycle h) in *.
  set (dt := now - Hardware.last_sim_time h).
  assert (Hdt0 : 0 <= dt) by (unfold dt; lra).
  change (Hardware.motor_torque_constant Hardware.sim_params) with (1 # 100).
  change (Hardware.max_speed Hardware.sim_params) with 1750.
  change (Hardware.motor_damping Hardware.sim_params) with (1 # 10).
  change (Hardware.load_torque Hardware.sim_params) with (1 # 10).
  change (Hardware.motor_inertia Hardware.sim_params) with (1 # 100).
  set (acc := (d / 100 * (1 # 100) * 1750 - (1 # 10) * s - (1 # 10))
              / (1 # 100)).
  assert (Hacc : acc <= 0).
  { unfold acc. apply Qle_shift_div_r; [reflexivity|].
    assert (Hd : d / 100 == d * (1 # 100)) by (unfold Qdiv; reflexivity).
    rewrite Hd. lra. }
  assert (Hprod : acc * dt <= 0).
  { rewrite <- (Qmult_0_l dt).
    apply Qmult_le_compat_r; assumption. }
  set (p := acc * dt) in *. clearbody p. clear Hacc Hdt0. clearbody s.
  unfold Np.clip, Np.minimum, Np.maximum, py_max.
  destruct (Qltb (s + p) 0) eqn:E1; qcmp; qdestruct; lra.
Qed.

(** A simulated motor that a first step of two seconds has taken to
    1750 RPM slows down under full duty. *)
Lemma simulated_speed_ceiling_witness :
  let h :=
    Hardware.run example_hardware
      [Hardware.OpStart; Hardware.OpSetDutyCycle 100;
       Hardware.OpMonitor 2 0 0] in
  Hardware.current_speed (Hardware._update_simulation h (201 # 100) 0 0)
  <= Hardware.current_speed h.
Proof.
  intro h.
  apply (simulated_speed_ceiling h (201 # 100) 0 0);
    vm_compute; discriminate.
Defined.

(** ** The safety state machine *)

Lemma reset_cleared_fields (x : Hardware.t) (l : Hardware.log_entry) :
  Hardware.emergency_stop_active
    (Hardware.write_log (Hardware.set_emergency_stop_active x false) l)
  = false /\
  Hardware.running
    (Hardware.write_log (Hardware.set_emergency_stop_active x false) l)
  = Hardware.running x /\
  Hardware.duty_cycle
    (Hardware.write_log (Hardware.set_emergency_stop_active x false) l)
  = Hardware.duty_cycle x.
Proof. repeat split. Qed.

(** X14.  The transitions of the safety state: [start] leads to
    Running from every state, the emergency stop included;
    [emergency_stop] leads to EmergencyStopped from every state;
    [stop] leads to Idle unless the emergency stop is active, which it
    leaves active; a successful [reset_emergency_stop] after an
    emergency stop leads to Idle, not back to Running, with the duty
    cycle still 0. *)
Theorem safety_state_transitions (h : Hardware.t) :
  Spec.safety (Hardware.start h) = Spec.Running /\
  Spec.safety (Hardware.emergency_stop h) = Spec.EmergencyStopped /\
  Spec.safety (Hardware.stop h)
  = (if Hardware.emergency_stop_active h
     then Spec.EmergencyStopped else Spec.Idle) /\
  (snd (Hardware.reset_emergency_stop (Hardware.emergency_stop h)) = true ->
   Spec.safety (fst (Hardware.reset_emergency_stop (Hardware.emergency_stop h)))
   = Spec.Idle /\
   Hardware.duty_cycle
     (fst (Hardware.reset_emergency_stop (Hardware.emergency_stop h))) = 0).
Proof.
  destruct (hardware_emergency_stop_sets h) as (He & Hr & Hd).
  split; [reflexivity|].
  split; [unfold Spec.safety; rewrite He; reflexivity|].
  split.
  - unfold Spec.safety. rewrite hardware_stop_keeps.
    destruct (Hardware.emergency_stop_active h); [reflexivity|].
    destruct (hardware_stop_fields h) as (_ & Hrs & _).
    rewrite Hrs. reflexivity.
  - unfold Hardware.reset_emergency_stop.
    destruct (_ || _); cbn [fst snd]; [|discriminate].
    intros _. unfold Spec.safety.
    destruct (reset_cleared_fields (Hardware.emergency_stop h)
                (Hardware.LogInfo "Emergency stop reset"))
      as (-> & -> & ->).
    rewrite Hr. split; [reflexivity | exact Hd].
Qed.

(** A running simulated controller, stopped by emergency and reset. *)
Lemma safety_state_transitions_witness :
  let h := Hardware.start example_hardware in
  snd (Hardware.reset_emergency_stop (Hardware.emergency_stop h)) = true /\
  Spec.safety (fst (Hardware.reset_emergency_stop (Hardware.emergency_stop h)))
  = Spec.Idle.
Proof.
  intro h.
  assert (Hok : snd (Hardware.reset_emergency_stop (Hardware.emergency_stop h))
                = true) by (vm_compute; reflexivity).
  split; [exact Hok|].
  apply (proj2 (proj2 (proj2 (safety_state_transitions h))) Hok).
Defined.

Lemma set_duty_cycle_pin (h : Hardware.t) (d : Q) :
  Hardware.pin_emergency_stop (Hardware.set_duty_cycle h d)
  = Hardware.pin_emergency_stop h.
Proof.
  unfold Hardware.set_duty_cycle.
  destruct (Hardware.simulation_mode h); [reflexivity|].
  destruct (Hardware.gpio_available h); [|reflexivity].
  destruct (Qleb 0 _); reflexivity.
Qed.

Lemma emergency_stop_keeps_mode (h : Hardware.t) :
  Hardware.simulation_mode (Hardware.emergency_stop h)
  = Hardware.simulation_mode h /\
  Hardware.gpio_available (Hardware.emergency_stop h)
  = Hardware.gpio_available h /\
  Hardware.pin_emergency_stop (Hardware.emergency_stop h)
  = Hardware.pin_emergency_stop h.
Proof.
  unfold Hardware.emergency_stop.
  set (h1 := Hardware.set_running
               (Hardware.set_emergency_stop_active h true) false).
  destruct (set_duty_cycle_fields h1 0) as (_ & _ & _ & Fm & Fg & _).
  pose proof (set_duty_cycle_pin h1 0) as Fp.
  split; [exact Fm|]. split; [exact Fg | exact Fp].
Qed.

(** The reset re-validates the stop input only on real
    hardware: in simulation [reset_emergency_stop] always returns true
    and clears the emergency stop; on real hardware, while the stop
    input is still asserted, it returns false and changes nothing, and
    once the input is released it returns true. *)
Theorem reset_emergency_stop_outcomes (h : Hardware.t) :
  (Hardware.simulation_mode h = true ->
   snd (Hardware.reset_emergency_stop h) = true /\
   Hardware.emergency_stop_active (fst (Hardware.reset_emergency_stop h))
   = false) /\
  (Hardware.simulation_mode h = false ->
   Hardware.pin_emergency_stop h = false ->
   Hardware.reset_emergency_stop h = (h, false)) /\
  (Hardware.simulation_mode h = false ->
   Hardware.gpio_available h = true ->
   Hardware.pin_emergency_stop h = true ->
   snd (Hardware.reset_emergency_stop h) = true /\
   Hardware.emergency_stop_active (fst (Hardware.reset_emergency_stop h))
   = false).
Proof.
  unfold Hardware.reset_emergency_stop.
  split; [|split].
  - intros ->. split; reflexivity.
  - intros -> ->. rewrite andb_false_r. reflexivity.
  - intros -> -> ->. split; reflexivity.
Qed.

(** A real controller with the stop button held down, after the
    callback has stopped it. *)
Lemma reset_emergency_stop_outcomes_witness :
  let h := Hardware.step (Hardware.start example_real_hardware)
             (Hardware.OpPin false) in
  Hardware.emergency_stop_active h = true /\
  Hardware.reset_emergency_stop h = (h, false).
Proof.
  intro h. split; [vm_compute; reflexivity|].
  apply (proj1 (proj2 (reset_emergency_stop_outcomes h)));
    vm_compute; reflexivity.
Defined.

(** X15.  The stop button works on real hardware only: there a
    falling edge on the stop input (the button pressed while it was
    released) activates the emergency stop, with the duty cycle and the
    PWM at 0, and while the input stays low every
    [reset_emergency_stop] is refused; in simulation a change of the
    input changes nothing but the level read on the pin. *)
Theorem stop_button_on_real_hardware (h : Hardware.t) :
  (Hardware.simulation_mode h = false ->
   Hardware.gpio_available h = true ->
   Hardware.pin_emergency_stop h = true ->
   let h' := Hardware.step h (Hardware.OpPin false) in
   Spec.safety h' = Spec.EmergencyStopped /\
   Hardware.duty_cycle h' = 0 /\
   Hardware.pwm h' = 0 /\
   Hardware.reset_emergency_stop h' = (h', false)) /\
  (Hardware.simulation_mode h = true ->
   forall level : bool,
     Hardware.step h (Hardware.OpPin level)
     = Hardware.set_pin_emergency_stop h level).
Proof.
  split.
  - intros Es Eg Ep h'. subst h'. unfold Hardware.step.
    rewrite Ep, Es, Eg. simpl andb. cbv iota.
    unfold Hardware._emergency_stop_callback.
    change (Hardware.gpio_available (Hardware.set_pin_emergency_stop h false))
      with (Hardware.gpio_available h).
    change (Hardware.pin_emergency_stop
              (Hardware.set_pin_emergency_stop h false)) with false.
    rewrite Eg. simpl andb. cbv iota.
    set (hp := Hardware.set_pin_emergency_stop h false).
    destruct (hardware_emergency_stop_sets hp) as (He & _ & Hd).
    destruct (hardware_emergency_stop_fields hp) as (_ & _ & Hreal).
    destruct (Hreal Es Eg) as (Hp & _ & _).
    destruct (emergency_stop_keeps_mode hp) as (Hm & _ & Hpin).
    split; [unfold Spec.safety; rewrite He; reflexivity|].
    split; [exact Hd|]. split; [exact Hp|].
    apply (proj1 (proj2 (reset_emergency_stop_outcomes
                           (Hardware.emergency_stop hp)))).
    + rewrite Hm. exact Es.
    + rewrite Hpin. reflexivity.
  - intros Es level. unfold Hardware.step. rewrite Es.
    rewrite andb_false_r. reflexivity.
Qed.

(** The button of a running real controller is pressed. *)
Lemma stop_button_on_real_hardware_witness :
  let h :=
    Hardware.run example_real_hardware
      [Hardware.OpStart; Hardware.OpSetDutyCycle 60] in
  let h' := Hardware.step h (Hardware.OpPin false) in
  Spec.safety h' = Spec.EmergencyStopped /\
  Hardware.duty_cycle h' = 0 /\
  Hardware.pwm h' = 0 /\
  Hardware.reset_emergency_stop h' = (h', false).
Proof.
  intro h.
  apply (proj1 (stop_button_on_real_hardware h)); vm_compute; reflexivity.
Defined.

(** ** The main controller's commands *)

Lemma set_duty_cycle_target (h : Hardware.t) (d : Q) :
  Hardware.target_speed (Hardware.set_duty_cycle h d) = Hardware.target_speed h.
Proof.
  unfold Hardware.set_duty_cycle.
  destruct (Hardware.simulation_mode h); [reflexivity|].
  destruct (Hardware.gpio_available h); [|reflexivity].
  destruct (Qleb 0 _); reflexivity.
Qed.

Lemma write_log_target (h : Hardware.t) (l : Hardware.log_entry) :
  Hardware.target_speed (Hardware.write_log h l) = Hardware.target_speed h.
Proof. reflexivity. Qed.

Lemma hardware_stop_target (h : Hardware.t) :
  Hardware.target_speed (Hardware.stop h) = Hardware.target_speed h.
Proof.
  unfold Hardware.stop.
  rewrite write_log_target, set_duty_cycle_target. reflexivity.
Qed.

Lemma hardware_emergency_stop_target (h : Hardware.t) :
  Hardware.target_speed (Hardware.emergency_stop h) = Hardware.target_speed h.
Proof.
  unfold Hardware.emergency_stop.
  rewrite write_log_target, set_duty_cycle_target. reflexivity.
Qed.

Lemma hardware_step_target (h : Hardware.t) (o : Hardware.op) :
  sets_hardware_target (Main.OpHardware o) = false ->
  Hardware.target_speed (Hardware.step h o) = Hardware.target_speed h.
Proof.
  intro Hc. destruct o; try discriminate Hc; unfold Hardware.step.
  - reflexivity.
  - apply hardware_stop_target.
  - apply hardware_emergency_stop_target.
  - unfold Hardware.reset_emergency_stop. destruct (_ || _); reflexivity.
  - apply set_duty_cycle_target.
  - reflexivity.
  - unfold Hardware._monitoring_loop_body, Hardware._update_measurements.
    destruct (_ && _); [|reflexivity].
    destruct (Hardware.simulation_mode h); reflexivity.
  - destruct (_ && _); [|reflexivity].
    unfold Hardware._emergency_stop_callback.
    destruct (_ && _); [|reflexivity].
    rewrite hardware_emergency_stop_target. reflexivity.
  - unfold Hardware.cleanup.
    rewrite write_log_target. apply hardware_stop_target.
Qed.

Lemma main_step_target (st : Main.t) (o : Main.op) :
  sets_hardware_target o = false ->
  Hardware.target_speed (Main.hardware (Main.step st o))
  = Hardware.target_speed (Main.hardware st).
Proof.
  intro Hc. destruct o; unfold Main.step.
  - reflexivity.
  - rewrite main_stop_hardware. apply hardware_stop_target.
  - rewrite main_emergency_stop_hardware.
    rewrite hardware_emergency_stop_target. apply hardware_stop_target.
  - reflexivity.
  - unfold Main.set_control_mode. destruct (_ || _); reflexivity.
  - destruct (tick_hardware st now) as [E|[c E]]; rewrite E;
      [reflexivity | apply set_duty_cycle_target].
  - reflexivity.
  - rewrite main_cleanup_hardware. unfold Hardware.cleanup.
    rewrite write_log_target, hardware_stop_target, hardware_stop_target.
    reflexivity.
  - change (Main.hardware (Main.set_hardware st ?x)) with x.
    apply hardware_step_target. exact Hc.
Qed.

(** X16.  The two target speeds are never connected:
    [MainController.set_target_speed] stores its argument as it is,
    without a clamp, and leaves the hardware controller untouched; the
    hardware controller's [target_speed], which [get_measurements]
    reports, changes only through a direct call of
    [HardwareController.set_target_speed]. *)
Theorem main_target_speed_never_reaches_hardware :
  (forall (st : Main.t) (speed : Q),
      Main.target_speed (Main.set_target_speed st speed) = Some speed /\
      Main.hardware (Main.set_target_speed st speed) = Main.hardware st) /\
  (forall (st : Main.t) (ops : list Main.op) (now : Q),
      Forall (fun o => sets_hardware_target o = false) ops ->
      Hardware.m_target_speed
        (Hardware.get_measurements (Main.hardware (Main.run st ops)) now)
      = Hardware.target_speed (Main.hardware st)).
Proof.
  split.
  - intros st speed. split; reflexivity.
  - intros st ops now Hops.
    change (Hardware.m_target_speed (Hardware.get_measurements ?h now))
      with (Hardware.target_speed h).
    unfold Main.run. revert st.
    induction Hops as [|o ops Ho _ IH]; intro st; simpl; [reflexivity|].
    rewrite IH. apply main_step_target. exact Ho.
Qed.

(** The example system asked for 5000 RPM through the main
    controller: the hardware controller still reports the target 0. *)
Lemma main_target_speed_never_reaches_hardware_witness :
  let ops :=
    [Main.OpStart; Main.OpSetTargetSpeed 5000; Main.OpTick 1] in
  Main.target_speed (Main.run example_main ops) = Some 5000 /\
  Hardware.m_target_speed
    (Hardware.get_measurements (Main.hardware (Main.run example_main ops)) 2)
  = 0.
Proof.
  intro ops. split; [vm_compute; reflexivity|].
  apply (proj2 main_target_speed_never_reaches_hardware example_main ops 2).
  repeat constructor.
Defined.

Lemma anfis_control_frame (st : Main.t) (m : Hardware.measurements) :
  Main.control_mode (Main._anfis_control st m) = Main.control_mode st /\
  Main.running (Main._anfis_control st m) = Main.running st /\
  Main.target_speed (Main._anfis_control st m) = Main.target_speed st.
Proof.
  unfold Main._anfis_control.
  destruct (Main.target_speed st) as [target|] eqn:Et.
  - destruct (ANFIS.calculate_control _ _) as [a c].
    repeat split. exact Et.
  - repeat split. exact Et.
Qed.

Lemma tick_frame (st : Main.t) (now : Q) :
  Main.control_mode (Main.tick st now) = Main.control_mode st /\
  Main.running (Main.tick st now) = Main.running st /\
  Main.target_speed (Main.tick st now) = Main.target_speed st.
Proof.
  unfold Main.tick. destruct (Main.running st) eqn:Er;
    [|repeat split; exact Er].
  unfold Main._control_loop_body, Main._manual_control.
  set (m := Hardware.get_measurements (Main.hardware st) now).
  destruct (Main.logging_enabled st).
  - destruct (String.eqb _ _).
    + destruct (anfis_control_frame (Main.log_data st m) m) as (-> & -> & ->).
      repeat split. exact Er.
    + repeat split. exact Er.
  - destruct (String.eqb _ _).
    + destruct (anfis_control_frame st m) as (-> & -> & ->).
      repeat split. exact Er.
    + repeat split. exact Er.
Qed.

Lemma main_step_mode (st : Main.t) (o : Main.op) :
  Main.control_mode st = "manual" \/ Main.control_mode st = "anfis" ->
  Main.control_mode (Main.step st o) = "manual" \/
  Main.control_mode (Main.step st o) = "anfis".
Proof.
  intro H. destruct o; unfold Main.step; try exact H.
  - unfold Main.set_control_mode.
    destruct (String.eqb mode "manual") eqn:E1.
    + apply String.eqb_eq in E1. left. simpl. exact E1.
    + destruct (String.eqb mode "anfis") eqn:E2.
      * apply String.eqb_eq in E2. right. simpl. exact E2.
      * exact H.
  - rewrite (proj1 (tick_frame st now)). exact H.
Qed.

(** X17.  The control mode is always one of the two the scheduler
    knows: after every sequence of operations from construction it is
    'manual' or 'anfis', and [set_control_mode] with any other string
    leaves the mode as it was. *)
Theorem control_mode_is_manual_or_anfis :
  (forall (h : Hardware.t) (a : ANFIS.t) (ops : list Main.op),
      let st := Main.run (Main.init h a) ops in
      Main.control_mode st = "manual" \/ Main.control_mode st = "anfis") /\
  (forall (st : Main.t) (mode : string),
      mode <> "manual" -> mode <> "anfis" ->
      Main.control_mode (Main.set_control_mode st mode)
      = Main.control_mode st /\
      Main.log (Main.set_control_mode st mode)
      = Main.LogError "Invalid control mode" :: Main.log st).
Proof.
  split.
  - intros h a ops st. subst st. unfold Main.run.
    assert (H0 : Main.control_mode (Main.init h a) = "manual" \/
                 Main.control_mode (Main.init h a) = "anfis")
      by (left; reflexivity).
    revert H0. generalize (Main.init h a).
    induction ops as [|o ops IH]; intros st H; simpl; [exact H|].
    apply IH. apply main_step_mode. exact H.
  - intros st mode H1 H2. unfold Main.set_control_mode.
    apply String.eqb_neq in H1. apply String.eqb_neq in H2.
    rewrite H1, H2. split; reflexivity.
Qed.

(** The mode 'auto' is refused. *)
Lemma control_mode_is_manual_or_anfis_witness :
  Main.control_mode (Main.set_control_mode example_main "auto")
  = Main.control_mode example_main /\
  Main.log (Main.set_control_mode example_main "auto")
  = Main.LogError "Invalid control mode" :: Main.log example_main.
Proof.
  apply (proj2 control_mode_is_manual_or_anfis example_main "auto");
    discriminate.
Defined.

(** X18.  In anfis mode the scheduler needs a target: while
    [set_target_speed] has never been called, a tick reads an
    attribute that does not exist, logs the AttributeError and neither
    calls the controller nor writes a duty cycle. *)
Theorem anfis_tick_without_target (st : Main.t) (now : Q) :
  Main.running st = true ->
  Main.control_mode st = "anfis" ->
  Main.target_speed st = None ->
  Main.hardware (Main.tick st now) = Main.hardware st /\
  Main.anfis (Main.tick st now) = Main.anfis st /\
  Main.log (Main.tick st now)
  = Main.LogException "Error in ANFIS control" AttributeError :: Main.log st.
Proof.
  intros Hr Hm Ht. unfold Main.tick. rewrite Hr.
  unfold Main._control_loop_body.
  set (m := Hardware.get_measurements (Main.hardware st) now).
  destruct (Main.logging_enabled st).
  - change (Main.control_mode (Main.log_data st m))
      with (Main.control_mode st).
    rewrite Hm. simpl String.eqb. cbv iota.
    unfold Main._anfis_control.
    change (Main.target_speed (Main.log_data st m))
      with (Main.target_speed st).
    rewrite Ht. repeat split.
  - rewrite Hm. simpl String.eqb. cbv iota.
    unfold Main._anfis_control. rewrite Ht. repeat split.
Qed.

(** The example system started and switched to anfis mode before any
    target is set. *)
Lemma anfis_tick_without_target_witness :
  let st :=
    Main.run example_main [Main.OpStart; Main.OpSetControlMode "anfis"] in
  Main.hardware (Main.tick st 1) = Main.hardware st /\
  Main.anfis (Main.tick st 1) = Main.anfis st /\
  Main.log (Main.tick st 1)
  = Main.LogException "Error in ANFIS control" AttributeError :: Main.log st.
Proof.
  intro st.
  apply (anfis_tick_without_target st 1); vm_compute; reflexivity.
Defined.

(** ** The data logger *)

(** X21.  With rows of one shape and working file operations the
    buffer never fills up: when the buffer holds fewer rows than
    [buffer_size] before [log_data], it does so afterwards, and the row
    that makes it reach [buffer_size] causes the whole buffer to be
    written to one file and emptied. *)
Theorem log_data_keeps_buffer_below_size (st : DataLogger.t)
    (data : DataLogger.row) (now : Q) :
  (List.length (DataLogger.current_session_data st)
   < DataLogger.buffer_size st)%nat ->
  let buffer :=
    DataLogger.current_session_data st
    ++ [DataLogger.with_timestamp data now] in
  writable buffer = true ->
  let st' := DataLogger.log_data st data now true in
  DataLogger.buffer_size st' = DataLogger.buffer_size st /\
  (List.length (DataLogger.current_session_data st')
   < DataLogger.buffer_size st')%nat /\
  ((List.length buffer < DataLogger.buffer_size st)%nat ->
   DataLogger.current_session_data st' = buffer /\
   DataLogger.saved st' = DataLogger.saved st) /\
  (List.length buffer = DataLogger.buffer_size st ->
   DataLogger.current_session_data st' = [] /\
   exists header, DataLogger.saved st' = (header, buffer) :: DataLogger.saved st).
Proof.
  intros Hlt buffer Hw st'. subst st'. unfold DataLogger.log_data.
  cbn [DataLogger.current_session_data DataLogger.buffer_size].
  fold buffer.
  assert (Hlen : List.length buffer
                 = S (List.length (DataLogger.current_session_data st))).
  { unfold buffer. rewrite length_app. simpl. lia. }
  destruct (Nat.leb_spec (DataLogger.buffer_size st) (List.length buffer))
    as [Hle|Hgt].
  - unfold DataLogger.save_session_data.
    cbn [DataLogger.current_session_data DataLogger.buffer_size
         DataLogger.saved DataLogger.log].
    destruct buffer as [|first rest] eqn:Eb; [simpl in Hlen; lia|].
    simpl negb. cbv iota. unfold writable in Hw. rewrite Hw.
    cbn [DataLogger.current_session_data DataLogger.buffer_size
         DataLogger.saved].
    split; [reflexivity|]. split; [simpl; lia|].
    split; [intro; lia|]. intros _. split; [reflexivity|].
    eexists. reflexivity.
  - cbn [DataLogger.current_session_data DataLogger.buffer_size
         DataLogger.saved].
    fold buffer.
    split; [reflexivity|]. split; [exact Hgt|].
    split; [intros _; split; reflexivity | intro; lia].
Qed.

(** The first measurement of a session. *)
Lemma log_data_keeps_buffer_below_size_witness :
  let data := [("speed", 100); ("timestamp", 1)] in
  let st' := DataLogger.log_data DataLogger.init data 1 true in
  (List.length (DataLogger.current_session_data st')
   < DataLogger.buffer_size st')%nat.
Proof.
  intros data st'.
  destruct (log_data_keeps_buffer_below_size DataLogger.init data 1)
    as (_ & H & _).
  - vm_compute. lia.
  - reflexivity.
  - exact H.
Defined.

Lemma writable_false_app (buffer : list DataLogger.row) (r : DataLogger.row) :
  writable buffer = false -> writable (buffer ++ [r]) = false.
Proof.
  destruct buffer as [|first rest]; [discriminate|].
  unfold writable. intro H.
  change ((first :: rest) ++ [r]) with (first :: (rest ++ [r])) at 1.
  cbv iota.
  rewrite forallb_app, H. reflexivity.
Qed.

Lemma save_session_data_refused (st : DataLogger.t) (io_ok : bool) :
  writable (DataLogger.current_session_data st) = false ->
  DataLogger.current_session_data (DataLogger.save_session_data st io_ok)
  = DataLogger.current_session_data st /\
  DataLogger.saved (DataLogger.save_session_data st io_ok)
  = DataLogger.saved st /\
  DataLogger.buffer_size (DataLogger.save_session_data st io_ok)
  = DataLogger.buffer_size st /\
  exists e,
    DataLogger.log (DataLogger.save_session_data st io_ok)
    = DataLogger.LogError "Error saving session data" e :: DataLogger.log st.
Proof.
  intro Hw. unfold DataLogger.save_session_data.
  destruct (DataLogger.current_session_data st) as [|first rest] eqn:Eb;
    [discriminate|].
  unfold writable in Hw. rewrite Hw.
  destruct io_ok; simpl negb; cbv iota;
    (split; [reflexivity|]); (split; [reflexivity|]);
    (split; [reflexivity|]); eexists; reflexivity.
Qed.

(** X22.  One odd row disables saving for the rest of the session:
    when the buffer holds a row with a key that its first row does not
    have, [save_session_data] fails whether or not the file can be
    opened, logs the error and keeps the buffer; since the row stays
    in the buffer, every later [log_data] only appends, no file is
    completed any more and the buffer grows without bound. *)
Theorem odd_row_disables_saving (st : DataLogger.t)
    (points : list (DataLogger.row * Q * bool)) :
  writable (DataLogger.current_session_data st) = false ->
  (forall io_ok : bool,
      DataLogger.current_session_data (DataLogger.save_session_data st io_ok)
      = DataLogger.current_session_data st /\
      DataLogger.saved (DataLogger.save_session_data st io_ok)
      = DataLogger.saved st) /\
  DataLogger.current_session_data (log_all st points)
  = DataLogger.current_session_data st ++ stamped points /\
  DataLogger.saved (log_all st points) = DataLogger.saved st.
Proof.
  intro Hw. split.
  - intro io_ok.
    destruct (save_session_data_refused st io_ok Hw) as (H1 & H2 & _).
    split; assumption.
  - unfold log_all. revert st Hw.
    induction points as [|[[data now] io_ok] points IH]; intros st Hw.
    + simpl. rewrite app_nil_r. split; reflexivity.
    + simpl fold_left. simpl stamped.
      set (st1 := DataLogger.mk
                    (DataLogger.current_session_data st
                     ++ [DataLogger.with_timestamp data now])
                    (DataLogger.buffer_size st) (DataLogger.saved st)
                    (DataLogger.log st)).
      assert (Hw1 : writable (DataLogger.current_session_data st1) = false)
        by (apply writable_false_app; exact Hw).
      assert (Hstep :
                DataLogger.current_session_data
                  (DataLogger.log_data st data now io_ok)
                = DataLogger.current_session_data st1 /\
                DataLogger.saved (DataLogger.log_data st data now io_ok)
                = DataLogger.saved st).
      { unfold DataLogger.log_data. fold st1.
        destruct (Nat.leb _ _).
        - destruct (save_session_data_refused st1 io_ok Hw1)
            as (H1 & H2 & _).
          split; assumption.
        - split; reflexivity. }
      destruct Hstep as [Hb Hs].
      destruct (IH (DataLogger.log_data st data now io_ok)) as [IH1 IH2].
      { rewrite Hb. exact Hw1. }
      rewrite IH1, IH2, Hb, Hs. simpl. rewrite <- app_assoc.
      split; reflexivity.
Qed.

(** A buffer whose second row has a field the first one lacks. *)
Lemma odd_row_disables_saving_witness :
  let st :=
    DataLogger.mk
      [[("speed", 1); ("timestamp", 0)];
       [("speed", 2); ("current", 3); ("timestamp", 1)]]
      2 [] [] in
  DataLogger.current_session_data
    (log_all st [([("speed", 4); ("timestamp", 2)], 2, true)])
  = DataLogger.current_session_data st
    ++ stamped [([("speed", 4); ("timestamp", 2)], 2, true)] /\
  DataLogger.saved
    (log_all st [([("speed", 4); ("timestamp", 2)], 2, true)])
  = DataLogger.saved st.
Proof.
  intro st.
  apply (proj2 (odd_row_disables_saving st
                  [([("speed", 4); ("timestamp", 2)], 2, true)]
                  eq_refl)).
Defined.

Lemma contains_getitem (point : DataLogger.row) (k : string) :
  DataLogger.getitem point k
  = if DataLogger.contains point k then Some (value_of point k) else None.
Proof.
  unfold value_of, DataLogger.contains.
  induction point as [|[k' v] point IH]; simpl; [reflexivity|].
  destruct (String.eqb k' k); simpl; [reflexivity | exact IH].
Qed.

Lemma values_spec (point : DataLogger.row) (ks : list string) :
  DataLogger.values point ks
  = if forallb (DataLogger.contains point) ks
    then Some (map (value_of point) ks)
    else None.
Proof.
  induction ks as [|k ks IH]; simpl; [reflexivity|].
  rewrite contains_getitem.
  destruct (DataLogger.contains point k); simpl; [|reflexivity].
  rewrite IH. destruct (forallb _ ks); reflexivity.
Qed.

Lemma collect_spec (data : list DataLogger.row)
    (input_keys output_keys : list string) :
  DataLogger.collect data input_keys output_keys
  = if complete data input_keys && complete data output_keys
    then Some (map (fun point => map (value_of point) input_keys) data,
               map (fun point => map (value_of point) output_keys) data)
    else None.
Proof.
  unfold complete.
  induction data as [|point rest IH]; simpl; [reflexivity|].
  rewrite !values_spec.
  destruct (forallb (DataLogger.contains point) input_keys); simpl;
    [|reflexivity].
  destruct (forallb (DataLogger.contains point) output_keys); simpl.
  - rewrite IH.
    destruct (forallb _ rest); simpl; [|reflexivity].
    destruct (forallb _ rest); reflexivity.
  - rewrite andb_false_r. reflexivity.
Qed.

(** X23.  [generate_training_dataset] is all or nothing: when every
    data point has every input key and every output key, it returns
    one row of input values and one row of output values per data
    point, in order, and logs nothing; when any point lacks any key, it
    logs the error and returns two empty arrays, the same result as
    for an empty list of data points. *)
Theorem generate_training_dataset_all_or_nothing (st : DataLogger.t)
    (data : list DataLogger.row) (input_keys output_keys : list string) :
  (complete data input_keys && complete data output_keys = true ->
   DataLogger.generate_training_dataset st data input_keys output_keys
   = (st,
      (map (fun point => map (value_of point) input_keys) data,
       map (fun point => map (value_of point) output_keys) data))) /\
  (complete data input_keys && complete data output_keys = false ->
   snd (DataLogger.generate_training_dataset st data input_keys output_keys)
   = snd (DataLogger.generate_training_dataset st [] input_keys output_keys)
   /\
   DataLogger.log
     (fst (DataLogger.generate_training_dataset st data input_keys
             output_keys))
   = DataLogger.LogError "Error generating training dataset"
       DataLogger.KeyError :: DataLogger.log st).
Proof.
  unfold DataLogger.generate_training_dataset.
  rewrite collect_spec. split; intros ->; [reflexivity|].
  split; reflexivity.
Qed.

(** Two measurements, the second without a duty cycle. *)
Lemma generate_training_dataset_all_or_nothing_witness :
  let data :=
    [[("speed", 100); ("duty_cycle", 10)]; [("speed", 120)]] in
  DataLogger.generate_training_dataset DataLogger.init data
    ["speed"] ["speed"]
  = (DataLogger.init, ([[100]; [120]], [[100]; [120]])) /\
  snd (DataLogger.generate_training_dataset DataLogger.init data
         ["speed"] ["duty_cycle"])
  = ([], []).
Proof.
  intro data. split.
  - apply (proj1 (generate_training_dataset_all_or_nothing
                    DataLogger.init data ["speed"] ["speed"])).
    reflexivity.
  - apply (proj2 (generate_training_dataset_all_or_nothing
                    DataLogger.init data ["speed"] ["duty_cycle"])).
    reflexivity.
Defined.

(** ** Measurements and actuation in the control loop *)

Lemma real_measurements_frame (h h' : Hardware.t) :
  Hardware.simulation_mode h' = Hardware.simulation_mode h ->
  Hardware.current_speed h' = Hardware.current_speed h ->
  Hardware.current_current h' = Hardware.current_current h ->
  Hardware.simulation_mode h = false /\
  Hardware.current_speed h = 0 /\ Hardware.current_current h = 0 ->
  Hardware.simulation_mode h' = false /\
  Hardware.current_speed h' = 0 /\ Hardware.current_current h' = 0.
Proof. intros -> -> ->. tauto. Qed.

Lemma set_duty_cycle_real (h : Hardware.t) (d : Q) :
  Hardware.simulation_mode h = false /\
  Hardware.current_speed h = 0 /\ Hardware.current_current h = 0 ->
  Hardware.simulation_mode (Hardware.set_duty_cycle h d) = false /\
  Hardware.current_speed (Hardware.set_duty_cycle h d) = 0 /\
  Hardware.current_current (Hardware.set_duty_cycle h d) = 0.
Proof.
  destruct (set_duty_cycle_fields h d) as (_ & Fs & Fc & Fm & _).
  apply real_measurements_frame; assumption.
Qed.

Lemma hardware_step_real (h : Hardware.t) (o : Hardware.op) :
  Hardware.simulation_mode h = false /\
  Hardware.current_speed h = 0 /\ Hardware.current_current h = 0 ->
  Hardware.simulation_mode (Hardware.step h o) = false /\
  Hardware.current_speed (Hardware.step h o) = 0 /\
  Hardware.current_current (Hardware.step h o) = 0.
Proof.
  intro H. destruct o; unfold Hardware.step.
  - exact H.
  - unfold Hardware.stop.
    apply (set_duty_cycle_real (Hardware.set_running h false) 0). exact H.
  - unfold Hardware.emergency_stop.
    apply (set_duty_cycle_real
             (Hardware.set_running
                (Hardware.set_emergency_stop_active h true) false) 0).
    exact H.
  - unfold Hardware.reset_emergency_stop. destruct (_ || _); exact H.
  - exact H.
  - apply set_duty_cycle_real. exact H.
  - exact H.
  - unfold Hardware._monitoring_loop_body, Hardware._update_measurements.
    destruct H as (Hs & H). rewrite Hs.
    destruct (_ && _); split; try exact Hs; exact H.
  - destruct (_ && _); [|exact H].
    unfold Hardware._emergency_stop_callback.
    destruct (_ && _); [|exact H].
    unfold Hardware.emergency_stop.
    apply (set_duty_cycle_real
             (Hardware.set_running
                (Hardware.set_emergency_stop_active
                   (Hardware.set_pin_emergency_stop h level) true) false) 0).
    exact H.
  - unfold Hardware.cleanup, Hardware.stop.
    apply (set_duty_cycle_real (Hardware.set_running h false) 0). exact H.
Qed.

Lemma main_step_real (st : Main.t) (o : Main.op) :
  Hardware.simulation_mode (Main.hardware st) = false /\
  Hardware.current_speed (Main.hardware st) = 0 /\
  Hardware.current_current (Main.hardware st) = 0 ->
  Hardware.simulation_mode (Main.hardware (Main.step st o)) = false /\
  Hardware.current_speed (Main.hardware (Main.step st o)) = 0 /\
  Hardware.current_current (Main.hardware (Main.step st o)) = 0.
Proof.
  intro H. destruct o; unfold Main.step.
  - exact H.
  - rewrite main_stop_hardware.
    apply (hardware_step_real _ Hardware.OpStop). exact H.
  - rewrite main_emergency_stop_hardware.
    apply (hardware_step_real _ Hardware.OpEmergencyStop).
    apply (hardware_step_real _ Hardware.OpStop). exact H.
  - exact H.
  - unfold Main.set_control_mode. destruct (_ || _); exact H.
  - destruct (tick_hardware st now) as [E|[c E]]; rewrite E;
      [exact H | apply set_duty_cycle_real; exact H].
  - exact H.
  - rewrite main_cleanup_hardware.
    apply (hardware_step_real _ Hardware.OpCleanup).
    apply (hardware_step_real _ Hardware.OpStop). exact H.
  - apply (hardware_step_real (Main.hardware st) o). exact H.
Qed.

(** X24.  On real hardware nothing is measured: [_update_measurements]
    and the sensor callback are empty, so after every sequence of
    operations a controller constructed for real hardware still
    reports the speed 0 and the current 0, and the error the fuzzy
    controller sees is the target itself. *)
Theorem real_hardware_measures_nothing
    (pin : bool) (min_rpm max_rpm now t : Q) (a : ANFIS.t)
    (ops : list Main.op) :
  let h :=
    Main.hardware
      (Main.run (Main.init (Hardware.init true false min_rpm max_rpm now pin) a)
         ops) in
  Hardware.m_speed (Hardware.get_measurements h t) = 0 /\
  Hardware.m_current (Hardware.get_measurements h t) = 0.
Proof.
  intro h.
  assert (H : Hardware.simulation_mode h = false /\
              Hardware.current_speed h = 0 /\
              Hardware.current_current h = 0).
  { subst h. unfold Main.run.
    assert (H0 : Hardware.simulation_mode
                   (Main.hardware
                      (Main.init
                         (Hardware.init true false min_rpm max_rpm now pin) a))
                 = false /\
                 Hardware.current_speed
                   (Main.hardware
                      (Main.init
                         (Hardware.init true false min_rpm max_rpm now pin) a))
                 = 0 /\
                 Hardware.current_current
                   (Main.hardware
                      (Main.init
                         (Hardware.init true false min_rpm max_rpm now pin) a))
                 = 0) by (repeat split).
    revert H0.
    generalize (Main.init (Hardware.init true false min_rpm max_rpm now pin) a).
    induction ops as [|o ops IH]; intros st H; simpl; [exact H|].
    apply IH. apply main_step_real. exact H. }
  destruct H as (_ & Hs & Hc). split; [exact Hs | exact Hc].
Qed.

Lemma calculate_control_range (a : ANFIS.t) (error : Q) :
  -100 <= snd (ANFIS.calculate_control a error) <= 100.
Proof.
  unfold ANFIS.calculate_control, ANFIS.control_try.
  match goal with |- context [bind ?m ?k] => destruct (bind m k) eqn:E end;
    simpl; [|lra].
  match type of E with
  | bind ?m _ = _ => destruct m; simpl in E; [|discriminate]
  end.
  injection E as <-. apply clip_bounds. lra.
Qed.

(** X25.  One scheduler tick in anfis mode: the error is the main
    controller's target minus the measured speed, the fuzzy controller
    is called once with it and keeps it as its previous error, and the
    duty cycle written is the controller's output itself, the second
    clip in [set_duty_cycle] changing nothing. *)
Theorem anfis_tick_writes_controller_output (st : Main.t) (now target : Q) :
  Main.running st = true ->
  Main.control_mode st = "anfis" ->
  Main.target_speed st = Some target ->
  let error := target - Hardware.current_speed (Main.hardware st) in
  Hardware.duty_cycle (Main.hardware (Main.tick st now))
  = snd (ANFIS.calculate_control (Main.anfis st) error) /\
  Main.anfis (Main.tick st now)
  = fst (ANFIS.calculate_control (Main.anfis st) error) /\
  ANFIS.last_error (Main.anfis (Main.tick st now)) = Some error.
Proof.
  intros Hr Hm Ht error.
  assert (Hbody :
            Hardware.duty_cycle (Main.hardware (Main.tick st now))
            = Np.clip (snd (ANFIS.calculate_control (Main.anfis st) error))
                (-100) 100 /\
            Main.anfis (Main.tick st now)
            = fst (ANFIS.calculate_control (Main.anfis st) error)).
  { unfold Main.tick. rewrite Hr. unfold Main._control_loop_body.
    set (m := Hardware.get_measurements (Main.hardware st) now).
    destruct (Main.logging_enabled st).
    - change (Main.control_mode (Main.log_data st m))
        with (Main.control_mode st).
      rewrite Hm. simpl String.eqb. cbv iota.
      unfold Main._anfis_control.
      change (Main.target_speed (Main.log_data st m))
        with (Main.target_speed st).
      rewrite Ht.
      change (Main.anfis (Main.log_data st m)) with (Main.anfis st).
      change (Hardware.m_speed m)
        with (Hardware.current_speed (Main.hardware st)).
      fold error.
      destruct (ANFIS.calculate_control (Main.anfis st) error) as [a c].
      split; reflexivity.
    - rewrite Hm. simpl String.eqb. cbv iota.
      unfold Main._anfis_control. rewrite Ht.
      change (Hardware.m_speed m)
        with (Hardware.current_speed (Main.hardware st)).
      fold error.
      destruct (ANFIS.calculate_control (Main.anfis st) error) as [a c].
      split; reflexivity. }
  destruct Hbody as [Hd Ha].
  split; [|split].
  - rewrite Hd. apply clip_inside. apply calculate_control_range.
  - exact Ha.
  - rewrite Ha. apply calculate_control_last_error.
Qed.

(** The example system in anfis mode with the target 30. *)
Lemma anfis_tick_writes_controller_output_witness :
  let st :=
    Main.run example_main
      [Main.OpStart; Main.OpSetControlMode "anfis";
       Main.OpSetTargetSpeed 30] in
  Hardware.duty_cycle (Main.hardware (Main.tick st 1))
  = snd (ANFIS.calculate_control (Main.anfis st)
           (30 - Hardware.current_speed (Main.hardware st))) /\
  ANFIS.last_error (Main.anfis (Main.tick st 1))
  = Some (30 - Hardware.current_speed (Main.hardware st)).
Proof.
  intro st.
  destruct (anfis_tick_writes_controller_output st 1 30) as (H1 & _ & H3);
    try (vm_compute; reflexivity).
  split; [exact H1 | exact H3].
Defined.

(** ** Stopping while the control loop runs *)

Lemma hardware_stop_speed (h : Hardware.t) :
  Hardware.current_speed (Hardware.stop h) = Hardware.current_speed h.
Proof.
  unfold Hardware.stop.
  change (Hardware.current_speed (Hardware.write_log ?x ?l))
    with (Hardware.current_speed x).
  destruct (set_duty_cycle_fields (Hardware.set_running h false) 0)
    as (_ & Fs & _).
  rewrite Fs. reflexivity.
Qed.

Lemma control_loop_body_anfis (st : Main.t) (now target : Q) :
  Main.control_mode st = "anfis" ->
  Main.target_speed st = Some target ->
  let error := target - Hardware.current_speed (Main.hardware st) in
  Hardware.duty_cycle (Main.hardware (Main._control_loop_body st now))
  = snd (ANFIS.calculate_control (Main.anfis st) error) /\
  Main.running (Main._control_loop_body st now) = Main.running st.
Proof.
  intros Hm Ht error.
  assert (Hbody :
            Hardware.duty_cycle
              (Main.hardware (Main._control_loop_body st now))
            = Np.clip (snd (ANFIS.calculate_control (Main.anfis st) error))
                (-100) 100 /\
            Main.running (Main._control_loop_body st now) = Main.running st).
  { unfold Main._control_loop_body.
    set (m := Hardware.get_measurements (Main.hardware st) now).
    destruct (Main.logging_enabled st).
    - change (Main.control_mode (Main.log_data st m))
        with (Main.control_mode st).
      rewrite Hm. simpl String.eqb. cbv iota.
      split.
      + rewrite (anfis_control_duty (Main.log_data st m) m target Ht).
        reflexivity.
      + rewrite (proj1 (proj2 (anfis_control_frame (Main.log_data st m) m))).
        reflexivity.
    - rewrite Hm. simpl String.eqb. cbv iota.
      split.
      + rewrite (anfis_control_duty st m target Ht). reflexivity.
      + rewrite (proj1 (proj2 (anfis_control_frame st m))). reflexivity. }
  destruct Hbody as [Hd Hr].
  split; [|exact Hr].
  rewrite Hd. apply clip_inside. apply calculate_control_range.
Qed.

(** X19.  [MainController.stop] clears the scheduler's flag, stops the
    hardware controller and zeroes the duty cycle, and a turn of the
    control loop that tests the flag afterwards does nothing.  But
    [stop] does not wait for the loop: in anfis mode with a target set,
    a turn that had tested the flag before [stop] ran calls the fuzzy
    controller after it and writes its output as the duty cycle, over
    the zero; the flag stays cleared, so that write is the last. *)
Theorem loop_turn_in_flight_writes_after_stop (st : Main.t)
    (now target : Q) :
  Main.control_mode st = "anfis" ->
  Main.target_speed st = Some target ->
  let stopped := Main.stop st in
  let late := Main._control_loop_body stopped now in
  Main.running stopped = false /\
  Hardware.running (Main.hardware stopped) = false /\
  Hardware.duty_cycle (Main.hardware stopped) = 0 /\
  Main.tick stopped now = stopped /\
  Hardware.duty_cycle (Main.hardware late)
  = snd (ANFIS.calculate_control (Main.anfis st)
           (target - Hardware.current_speed (Main.hardware st))) /\
  Main.running late = false /\
  Main.tick late now = late.
Proof.
  intros Hm Ht stopped late.
  assert (Hr : Main.running stopped = false) by reflexivity.
  destruct (hardware_stop_fields (Main.hardware st)) as (Hd & Hhr & _).
  destruct (control_loop_body_anfis stopped now target Hm Ht) as [Hlate Hlr].
  fold late in Hlate, Hlr.
  assert (Hlr' : Main.running late = false) by (rewrite Hlr; exact Hr).
  split; [exact Hr|].
  split; [exact Hhr|].
  split; [exact Hd|].
  split; [apply tick_not_running; exact Hr|].
  split.
  - rewrite Hlate.
    change (Main.anfis stopped) with (Main.anfis st).
    change (Main.hardware stopped) with (Hardware.stop (Main.hardware st)).
    rewrite hardware_stop_speed. reflexivity.
  - split; [exact Hlr' | apply tick_not_running; exact Hlr'].
Qed.

(** The example system in anfis mode with the target 0, stopped while
    a turn of the loop is under way: the turn leaves the duty cycle at
    the controller output, which is not 0. *)
Lemma loop_turn_in_flight_writes_after_stop_witness :
  let st :=
    Main.run example_main
      [Main.OpStart; Main.OpSetControlMode "anfis";
       Main.OpSetTargetSpeed 0] in
  Hardware.duty_cycle (Main.hardware (Main.stop st)) = 0 /\
  Hardware.duty_cycle
    (Main.hardware (Main._control_loop_body (Main.stop st) 1))
  = snd (ANFIS.calculate_control (Main.anfis st)
           (0 - Hardware.current_speed (Main.hardware st))) /\
  ~ snd (ANFIS.calculate_control (Main.anfis st)
           (0 - Hardware.current_speed (Main.hardware st))) == 0.
Proof.
  intro st.
  destruct (loop_turn_in_flight_writes_after_stop st 1 0)
    as (_ & _ & Hd & _ & Hlate & _);
    try (vm_compute; reflexivity).
  split; [exact Hd|]. split; [exact Hlate|].
  intro H. vm_compute in H. discriminate.
Defined.
